(** * script.js: the extract / preview / download page script

    A shallow embedding of [src/script.js].  The script owns one module-level
    variable ([extractedData]), two click handlers and four helper functions
    ([setMessage], [setLoading], [clearContentPreview], [displayContent]).

    - The page elements the script touches are fields of [World]; the
      preview area is a list of DOM nodes.
    - The handlers are written in a small state-and-exception monad [M]:
      mutations made before a [throw] persist, as they do in JavaScript.
    - [fetch] takes its outcome from the environment (field [network]) and
      records the request it issues (field [requests]); a request the
      environment never answers leaves the handler [Pending].
    - Two more fields record what the script does to its surroundings: the
      files it hands to the browser ([saved]) and the datasets it has
      rendered ([displayContent_calls]).
    - What the JavaScript engine provides ([JSON.parse], number printing, the
      wording of engine errors) is the class [Platform].

    The properties come in two parts: the renderer ([displayContent]) and
    the two handlers, each summed up by a function of the page and of what
    the network answers.  After them come further properties of the helper
    functions, of the branches of the renderer and of the paths of the two
    handlers. *)

From Stdlib Require Import String Ascii List Bool Arith Lia DecimalString.
Import ListNotations.
Local Open Scope string_scope.
Local Open Scope list_scope.
Set Warnings "-register-all".

Infix "+++" := String.append (at level 60, right associativity).

(** ** Values of the engine *)

(** The values [JSON.parse] can return.  Objects keep their properties in
    source order; [JSON.parse] never yields two properties of one name. *)
Inductive json (number : Type) : Type :=
| JNull
| JBool (b : bool)
| JNumber (n : number)
| JString (s : string)
| JArray (elements : list (json number))
| JObject (properties : list (string * json number)).

Arguments JNull {number}.
Arguments JBool {number} b.
Arguments JNumber {number} n.
Arguments JString {number} s.
Arguments JArray {number} elements.
Arguments JObject {number} properties.

(** The value of a property of an object, if it has one. *)
Definition property {number : Type} (key : string)
    (ps : list (string * json number)) : option (json number) :=
  option_map snd (find (fun kv => String.eqb key (fst kv)) ps).

(** What the script relies on from the engine. *)
Class Platform : Type := {
  (** JavaScript numbers *)
  number : Type;
  (** [String(n)] for a number *)
  Number_toString : number -> string;
  (** [JSON.parse(text)]: [inl m] is a SyntaxError with message [m] *)
  JSON_parse : string -> string + json number;
  (** the engine's message for a TypeError raised by the named access or
      conversion *)
  TypeError_message : string -> string
}.

(** An exception value; the script only ever reads [error.message]. *)
Record JsError : Type := mkError { name : string; message : string }.

Definition Error (m : string) : JsError := mkError "Error" m.
Definition SyntaxError (m : string) : JsError := mkError "SyntaxError" m.
Definition TypeError (m : string) : JsError := mkError "TypeError" m.

(** [Array.prototype.join] with the default separator, given what the
    conversion of each element gives, in order: the first conversion that
    raises ends the call. *)
Fixpoint join (parts : list (JsError + string)) : JsError + string :=
  match parts with
  | [] => inr EmptyString
  | inl e :: _ => inl e
  | inr s :: rest =>
      match rest with
      | [] => inr s
      | _ :: _ =>
          match join rest with
          | inl e => inl e
          | inr t => inr (s +++ "," +++ t)
          end
      end
  end.

(** A template literal's rendering of a non-negative integer. *)
Definition String_of_nat (n : nat) : string :=
  NilZero.string_of_uint (Nat.to_uint n).

(** ** The document *)

(** A DOM node.  [classList] is the token list behind [className];
    [attributes] holds the other content attributes in the order set. *)
Inductive node : Type :=
| Text (data : string)
| Element (tagName : string) (attributes : list (string * string))
          (classList : list string) (childNodes : list node).

Definition createElement (tag : string) : node := Element tag [] [] [].

Definition set_className (tokens : list string) (n : node) : node :=
  match n with
  | Text d => Text d
  | Element t a _ ch => Element t a tokens ch
  end.

Definition classList_add (token : string) (n : node) : node :=
  match n with
  | Text d => Text d
  | Element t a c ch =>
      if existsb (String.eqb token) c then n else Element t a (c ++ [token]) ch
  end.

Fixpoint set_assoc (k v : string) (l : list (string * string)) : list (string * string) :=
  match l with
  | [] => [(k, v)]
  | (k', v') :: l' => if String.eqb k k' then (k, v) :: l' else (k', v') :: set_assoc k v l'
  end.

Definition setAttribute (k v : string) (n : node) : node :=
  match n with
  | Text d => Text d
  | Element t a c ch => Element t (set_assoc k v a) c ch
  end.

Definition appendChild (parent child : node) : node :=
  match parent with
  | Text d => Text d
  | Element t a c ch => Element t a c (ch ++ [child])
  end.

(** [el.textContent = s]: every child is replaced by one text node, or by
    nothing when [s] is empty. *)
Definition set_textContent (s : string) (n : node) : node :=
  match n with
  | Text _ => Text s
  | Element t a c _ =>
      Element t a c (if String.eqb s EmptyString then [] else [Text s])
  end.

(** The [textContent] getter: the text of all descendants, in tree order. *)
Fixpoint textContent (n : node) : string :=
  match n with
  | Text d => d
  | Element _ _ _ ch => String.concat EmptyString (map textContent ch)
  end.


Definition tag_of (n : node) : string :=
  match n with Text _ => EmptyString | Element t _ _ _ => t end.

Definition children_of (n : node) : list node :=
  match n with Text _ => [] | Element _ _ _ ch => ch end.

Definition attribute (k : string) (n : node) : option string :=
  match n with
  | Text _ => None
  | Element _ a _ _ =>
      option_map snd (find (fun kv => String.eqb k (fst kv)) a)
  end.

Definition has_id (i : string) (n : node) : bool :=
  match attribute "id" n with Some j => String.eqb i j | None => false end.

(** ** Data model *)

(** One extracted item, as the service's JSON gives it, with the types of
    the data model: the four properties are strings.  [title] is read only
    for image and table items; [content] is the text of a text item, the
    source of an image, the serialized columns and rows of a table. *)
Record ContentItem : Type := mkItem {
  source_filename : string;
  type : string;
  title : string;
  content : string
}.

Record File : Type := mkFile { file_name : string; file_bytes : string }.

Definition Blob : Type := string.

(** ** The network *)

Inductive RequestBody : Type :=
| FormData (entries : list (string * File))
| JsonBody (extracted_data : list ContentItem).

Record Request : Type := mkRequest {
  url : string;
  method : string;
  headers : list (string * string);
  body : RequestBody
}.

(** What [await response.json()] gives: a rejection when the body is absent
    or is not JSON, the value [null], or any other JSON value seen through
    the two properties the script reads.  A value without an [error]
    property (an array, a number, an object that lacks it) has
    [obj_error = None]; [extracted_data] is an array of items, as the
    interface of the service has it. *)
Inductive JsonResult : Type :=
| JsonRejects (e : JsError)
| JsonNull
| JsonValue (obj_error : option string) (obj_extracted_data : list ContentItem).

Record Response : Type := mkResponse {
  status : nat;
  json_result : JsonResult;
  blob_result : JsError + Blob
}.

(** [response.ok]: the status is in the range 200-299. *)
Definition ok (r : Response) : bool :=
  ((200 <=? status r) && (status r <=? 299))%nat.

(** A [fetch] promise rejects (no response received) or resolves. *)
Definition FetchOutcome : Type := (JsError + Response)%type.

(** ** The page and the environment *)

Record World : Type := mkWorld {
  (** [let extractedData = []] *)
  extractedData : list ContentItem;
  (** the file input *)
  pdfFile_files : list File;
  pdfFile_disabled : bool;
  (** the two buttons; [hidden] is the presence of the CSS class *)
  extractButton_disabled : bool;
  downloadButton_disabled : bool;
  downloadButton_hidden : bool;
  loadingSpinner_hidden : bool;
  previewTitle_hidden : bool;
  (** the status line *)
  messageDiv_textContent : string;
  messageDiv_classList : list string;
  (** children of the preview area *)
  contentPreview : list node;
  (** outcomes of the requests still to be issued, next one first *)
  network : list FetchOutcome;
  (** requests issued so far, oldest first *)
  requests : list Request;
  (** files handed to the browser's save mechanism: name and payload *)
  saved : list (string * Blob);
  (** the datasets [displayContent] has been called with, oldest first; the
      script does not read this, it is kept to state properties *)
  displayContent_calls : list (list ContentItem)
}.

Definition set_extractedData (d : list ContentItem) (w : World) : World :=
  mkWorld d (pdfFile_files w) (pdfFile_disabled w) (extractButton_disabled w)
    (downloadButton_disabled w) (downloadButton_hidden w) (loadingSpinner_hidden w)
    (previewTitle_hidden w) (messageDiv_textContent w) (messageDiv_classList w)
    (contentPreview w) (network w) (requests w) (saved w) (displayContent_calls w).

Definition set_files (fs : list File) (w : World) : World :=
  mkWorld (extractedData w) fs (pdfFile_disabled w) (extractButton_disabled w)
    (downloadButton_disabled w) (downloadButton_hidden w) (loadingSpinner_hidden w)
    (previewTitle_hidden w) (messageDiv_textContent w) (messageDiv_classList w)
    (contentPreview w) (network w) (requests w) (saved w) (displayContent_calls w).

Definition set_disabled (b : bool) (w : World) : World :=
  mkWorld (extractedData w) (pdfFile_files w) b b b
    (downloadButton_hidden w) (loadingSpinner_hidden w)
    (previewTitle_hidden w) (messageDiv_textContent w) (messageDiv_classList w)
    (contentPreview w) (network w) (requests w) (saved w) (displayContent_calls w).

Definition set_downloadButton_hidden (b : bool) (w : World) : World :=
  mkWorld (extractedData w) (pdfFile_files w) (pdfFile_disabled w) (extractButton_disabled w)
    (downloadButton_disabled w) b (loadingSpinner_hidden w)
    (previewTitle_hidden w) (messageDiv_textContent w) (messageDiv_classList w)
    (contentPreview w) (network w) (requests w) (saved w) (displayContent_calls w).

Definition set_loadingSpinner_hidden (b : bool) (w : World) : World :=
  mkWorld (extractedData w) (pdfFile_files w) (pdfFile_disabled w) (extractButton_disabled w)
    (downloadButton_disabled w) (downloadButton_hidden w) b
    (previewTitle_hidden w) (messageDiv_textContent w) (messageDiv_classList w)
    (contentPreview w) (network w) (requests w) (saved w) (displayContent_calls w).

Definition set_previewTitle_hidden (b : bool) (w : World) : World :=
  mkWorld (extractedData w) (pdfFile_files w) (pdfFile_disabled w) (extractButton_disabled w)
    (downloadButton_disabled w) (downloadButton_hidden w) (loadingSpinner_hidden w)
    b (messageDiv_textContent w) (messageDiv_classList w)
    (contentPreview w) (network w) (requests w) (saved w) (displayContent_calls w).

Definition set_messageDiv (t : string) (c : list string) (w : World) : World :=
  mkWorld (extractedData w) (pdfFile_files w) (pdfFile_disabled w) (extractButton_disabled w)
    (downloadButton_disabled w) (downloadButton_hidden w) (loadingSpinner_hidden w)
    (previewTitle_hidden w) t c
    (contentPreview w) (network w) (requests w) (saved w) (displayContent_calls w).

Definition set_contentPreview (ns : list node) (w : World) : World :=
  mkWorld (extractedData w) (pdfFile_files w) (pdfFile_disabled w) (extractButton_disabled w)
    (downloadButton_disabled w) (downloadButton_hidden w) (loadingSpinner_hidden w)
    (previewTitle_hidden w) (messageDiv_textContent w) (messageDiv_classList w)
    ns (network w) (requests w) (saved w) (displayContent_calls w).

Definition set_network (net : list FetchOutcome) (w : World) : World :=
  mkWorld (extractedData w) (pdfFile_files w) (pdfFile_disabled w) (extractButton_disabled w)
    (downloadButton_disabled w) (downloadButton_hidden w) (loadingSpinner_hidden w)
    (previewTitle_hidden w) (messageDiv_textContent w) (messageDiv_classList w)
    (contentPreview w) net (requests w) (saved w) (displayContent_calls w).

Definition set_requests (rs : list Request) (w : World) : World :=
  mkWorld (extractedData w) (pdfFile_files w) (pdfFile_disabled w) (extractButton_disabled w)
    (downloadButton_disabled w) (downloadButton_hidden w) (loadingSpinner_hidden w)
    (previewTitle_hidden w) (messageDiv_textContent w) (messageDiv_classList w)
    (contentPreview w) (network w) rs (saved w) (displayContent_calls w).

Definition set_saved (l : list (string * Blob)) (w : World) : World :=
  mkWorld (extractedData w) (pdfFile_files w) (pdfFile_disabled w) (extractButton_disabled w)
    (downloadButton_disabled w) (downloadButton_hidden w) (loadingSpinner_hidden w)
    (previewTitle_hidden w) (messageDiv_textContent w) (messageDiv_classList w)
    (contentPreview w) (network w) (requests w) l (displayContent_calls w).

Definition set_displayContent_calls (l : list (list ContentItem)) (w : World) : World :=
  mkWorld (extractedData w) (pdfFile_files w) (pdfFile_disabled w) (extractButton_disabled w)
    (downloadButton_disabled w) (downloadButton_hidden w) (loadingSpinner_hidden w)
    (previewTitle_hidden w) (messageDiv_textContent w) (messageDiv_classList w)
    (contentPreview w) (network w) (requests w) (saved w) l.

(** ** The monad of the script *)

(** How a piece of code ends: normally, by an exception, or never (it awaits
    a request that does not resolve). *)
Inductive Outcome (A : Type) : Type :=
| Ok (a : A)
| Throw (e : JsError)
| Pending.

Arguments Ok {A} a.
Arguments Throw {A} e.
Arguments Pending {A}.

Definition M (A : Type) : Type := World -> Outcome A * World.

Definition ret {A : Type} (a : A) : M A := fun w => (Ok a, w).

Definition bind {A B : Type} (c : M A) (k : A -> M B) : M B :=
  fun w =>
    match c w with
    | (Ok a, w1) => k a w1
    | (Throw e, w1) => (Throw e, w1)
    | (Pending, w1) => (Pending, w1)
    end.

Definition throw {A : Type} (e : JsError) : M A := fun w => (Throw e, w).

Definition gets {A : Type} (f : World -> A) : M A := fun w => (Ok (f w), w).

Definition modify (f : World -> World) : M unit := fun w => (Ok tt, f w).

Notation "x <- c ;; k" := (bind c (fun x => k))
  (at level 61, c at next level, right associativity).
Notation "c ;; k" := (bind c (fun _ => k))
  (at level 61, right associativity).

(** [try { body } catch (error) { handler error } finally { fin }].  The
    [finally] block runs after the body or after the handler, however they
    end, unless they never end. *)
Definition try_catch_finally {A : Type}
    (body : M A) (handler : JsError -> M A) (fin : M unit) : M A :=
  fun w =>
    let after (r : Outcome A * World) : Outcome A * World :=
      match r with
      | (Pending, w1) => (Pending, w1)
      | (o, w1) =>
          match fin w1 with
          | (Ok _, w2) => (o, w2)
          | (Throw e, w2) => (Throw e, w2)
          | (Pending, w2) => (Pending, w2)
          end
      end in
    match body w with
    | (Ok a, w1) => after (Ok a, w1)
    | (Throw e, w1) => after (handler e w1)
    | (Pending, w1) => (Pending, w1)
    end.

(** [for (const x of l)] and [l.forEach] with a local accumulator. *)
Fixpoint foldM {A B : Type} (f : A -> B -> M A) (l : list B) (a : A) : M A :=
  match l with
  | [] => ret a
  | x :: l' => a' <- f a x ;; foldM f l' a'
  end.

(** [await fetch(url, init)]: the request is issued, then the environment
    decides. *)
Definition fetch (rq : Request) : M Response :=
  fun w =>
    let w1 := set_requests (requests w ++ [rq]) w in
    match network w with
    | [] => (Pending, w1)
    | inl e :: net => (Throw e, set_network net w1)
    | inr r :: net => (Ok r, set_network net w1)
    end.

(** ** The script *)

Section Script.

Context {platform : Platform}.

Definition value : Type := json number.

(** [String(v)] for a parsed value.  An array prints as [join(",")] of its
    elements, where [null] elements print as nothing.  An object prints
    through [Object.prototype.toString], unless it has a property
    [toString] of its own: a parsed value is never callable, and neither
    that property nor [valueOf] then yields a primitive, so the conversion
    raises a TypeError. *)
Fixpoint ToString (v : value) : JsError + string :=
  match v with
  | JNull => inr "null"
  | JBool true => inr "true"
  | JBool false => inr "false"
  | JNumber n => inr (Number_toString n)
  | JString s => inr s
  | JArray l =>
      join (map (fun x => match x with JNull => inr EmptyString | _ => ToString x end) l)
  | JObject ps =>
      match property "toString" ps with
      | Some _ => inl (TypeError (TypeError_message "String(value)"))
      | None => inr "[object Object]"
      end
  end.

(** The string a [textContent] assignment receives from a parsed value:
    [null] counts as the empty string. *)
Definition DOMString_of (v : value) : JsError + string :=
  match v with JNull => inr EmptyString | _ => ToString v end.

(** The values that have no string form: an object with a property
    [toString] of its own, and an array that holds such a value. *)
Fixpoint unprintable (v : value) : bool :=
  match v with
  | JArray l => existsb unprintable l
  | JObject ps => match property "toString" ps with Some _ => true | None => false end
  | _ => false
  end.

(** [v.key] for a parsed value and a key that no built-in prototype
    defines: [inl] is the TypeError of reading a property of [null],
    [inr None] is [undefined]. *)
Definition get_property (what key : string) (v : value) : JsError + option value :=
  match v with
  | JNull => inl (TypeError (TypeError_message what))
  | JObject ps => inr (property key ps)
  | _ => inr None
  end.

(** The receiver of a [.forEach(...)] call must be an array. *)
Definition as_array (what : string) (v : option value) : JsError + list value :=
  match v with
  | Some (JArray l) => inr l
  | _ => inl (TypeError (TypeError_message what))
  end.

Definition lift {A : Type} (r : JsError + A) : M A :=
  match r with inl e => throw e | inr a => ret a end.

(** *** setMessage (lines 134-141), setLoading (lines 147-156) *)

(** [className] is assigned the four base classes, then the class of the
    colour is added. *)

Definition setMessage (text type_ : string) : M unit :=
  modify (set_messageDiv text ["text-center"; "text-lg"; "mb-4"; "font-semibold"]) ;;
  let add (token : string) : M unit :=
    modify (fun w => set_messageDiv (messageDiv_textContent w)
                       (if existsb (String.eqb token) (messageDiv_classList w)
                        then messageDiv_classList w
                        else messageDiv_classList w ++ [token]) w) in
  (if String.eqb type_ "blue" then add "text-blue-700" else ret tt) ;;
  (if String.eqb type_ "green" then add "text-green-600" else ret tt) ;;
  (if String.eqb type_ "yellow" then add "text-yellow-700" else ret tt) ;;
  (if String.eqb type_ "red" then add "text-red-600" else ret tt).

Definition setLoading (isLoading : bool) : M unit :=
  modify (set_disabled isLoading) ;;
  if isLoading
  then modify (set_loadingSpinner_hidden false)
  else modify (set_loadingSpinner_hidden true).

(** *** clearContentPreview (lines 161-169) *)

Definition contentPreview_appendChild (n : node) : M unit :=
  modify (fun w => set_contentPreview (contentPreview w ++ [n]) w).

Definition clearContentPreview : M unit :=
  modify (set_previewTitle_hidden true) ;;
  modify (set_contentPreview []) ;;
  let initialMsgP := createElement "p" in
  let initialMsgP := set_className ["text-gray-500"; "text-center"] initialMsgP in
  let initialMsgP := setAttribute "id" "initialMessage" initialMsgP in
  let initialMsgP := set_textContent "Extracted content will appear here." initialMsgP in
  contentPreview_appendChild initialMsgP.

(** *** displayContent (lines 175-257) *)

(** [initialMsg.classList.add("hidden")] on the element
    [document.getElementById("initialMessage")] finds: the placeholder that
    [clearContentPreview] has just put in the preview area (the rest of the
    document is not modelled). *)
Fixpoint hide_by_id (i : string) (ns : list node) : list node :=
  match ns with
  | [] => []
  | n :: ns' => if has_id i n then classList_add "hidden" n :: ns' else n :: hide_by_id i ns'
  end.

(** The [table] branch (lines 212-253) up to the finished container; nothing
    is attached to the page before the last line of the branch. *)
Definition table_block (item : ContentItem) : M node :=
  let tableContainer := createElement "div" in
  let tableContainer := set_className ["my-4"; "overflow-x-auto"] tableContainer in
  let tableTitle := createElement "h4" in
  let tableTitle :=
    set_className ["text-md"; "font-semibold"; "text-gray-700"; "text-center"; "mb-2"] tableTitle in
  let tableTitle := set_textContent (title item) tableTitle in
  tableData <- lift (match JSON_parse (content item) with
                     | inl m => inl (SyntaxError m)
                     | inr v => inr v
                     end) ;;
  let tableElement := createElement "table" in
  let tableElement :=
    set_className ["w-full"; "text-sm"; "text-left"; "text-gray-500"; "rounded-lg";
                   "shadow-md"; "overflow-hidden"] tableElement in
  let thead := createElement "thead" in
  let thead := set_className ["text-xs"; "text-gray-700"; "uppercase"; "bg-gray-200"] thead in
  let headerRow := createElement "tr" in
  columns <- lift (get_property "tableData.columns" "columns" tableData) ;;
  columns <- lift (as_array "tableData.columns.forEach" columns) ;;
  headerRow <- foldM (fun headerRow col =>
                 let th := createElement "th" in
                 let th := setAttribute "scope" "col" th in
                 let th := set_className ["px-6"; "py-3"] th in
                 text <- lift (DOMString_of col) ;;
                 let th := set_textContent text th in
                 ret (appendChild headerRow th)) columns headerRow ;;
  let thead := appendChild thead headerRow in
  let tableElement := appendChild tableElement thead in
  let tbody := createElement "tbody" in
  let tbody := set_className ["bg-white"; "divide-y"; "divide-gray-200"] tbody in
  data <- lift (get_property "tableData.data" "data" tableData) ;;
  data <- lift (as_array "tableData.data.forEach" data) ;;
  tbody <- foldM (fun tbody row =>
             let tr := createElement "tr" in
             let tr := set_className ["hover:bg-gray-100"] tr in
             cells <- lift (as_array "row.forEach" (Some row)) ;;
             tr <- foldM (fun tr cell =>
                     let td := createElement "td" in
                     let td := set_className ["px-6"; "py-4"] td in
                     text <- lift (DOMString_of cell) ;;
                     let td := set_textContent text td in
                     ret (appendChild tr td)) cells tr ;;
             ret (appendChild tbody tr)) data tbody ;;
  let tableElement := appendChild tableElement tbody in
  let tableContainer := appendChild tableContainer tableTitle in
  let tableContainer := appendChild tableContainer tableElement in
  ret tableContainer.

(** The callback of [data.forEach] (lines 184-256); [currentSource] is the
    variable of the enclosing function, passed in and handed back. *)
Definition forEach_item (currentSource : string) (item : ContentItem) : M string :=
  currentSource <-
    (if negb (String.eqb currentSource (source_filename item)) then
       let currentSource := source_filename item in
       let header := createElement "h3" in
       let header :=
         set_className ["text-xl"; "font-bold"; "text-gray-700"; "mt-6"; "mb-2"] header in
       let header :=
         set_textContent ("--- Content from: " +++ currentSource +++ " ---") header in
       contentPreview_appendChild header ;;
       ret currentSource
     else ret currentSource) ;;
  (if String.eqb (type item) "text" then
     let p := createElement "p" in
     let p := set_className ["mb-2"; "text-gray-800"] p in
     let p := set_textContent (content item) p in
     contentPreview_appendChild p
   else if String.eqb (type item) "image" then
     let imgContainer := createElement "div" in
     let imgContainer := set_className ["my-4"; "text-center"] imgContainer in
     let imgTitle := createElement "h4" in
     let imgTitle := set_className ["text-md"; "font-semibold"; "text-gray-700"] imgTitle in
     let imgTitle := set_textContent (title item) imgTitle in
     let img := createElement "img" in
     let img := setAttribute "src" (content item) img in
     let img := setAttribute "alt" (title item) img in
     let img :=
       set_className ["max-w-full"; "h-auto"; "mx-auto"; "rounded-lg"; "shadow-md"; "mt-2"] img in
     let imgContainer := appendChild imgContainer imgTitle in
     let imgContainer := appendChild imgContainer img in
     contentPreview_appendChild imgContainer
   else if String.eqb (type item) "table" then
     tableContainer <- table_block item ;;
     contentPreview_appendChild tableContainer
   else ret tt) ;;
  ret currentSource.

Definition displayContent (data : list ContentItem) : M unit :=
  modify (fun w => set_displayContent_calls (displayContent_calls w ++ [data]) w) ;;
  clearContentPreview ;;
  modify (set_previewTitle_hidden false) ;;
  modify (fun w => set_contentPreview (hide_by_id "initialMessage" (contentPreview w)) w) ;;
  let currentSource := EmptyString in
  _ <- foldM forEach_item data currentSource ;;
  ret tt.

(** *** The click handlers (lines 16-81 and 87-127) *)

Definition upload_url : string := "http://127.0.0.1:5000/upload-pdfs".
Definition generate_url : string := "http://127.0.0.1:5000/generate-pdf".

Definition upload_request (files : list File) : Request :=
  mkRequest upload_url "POST" [] (FormData (map (fun file => ("pdfFile", file)) files)).

Definition generate_request (data : list ContentItem) : Request :=
  mkRequest generate_url "POST" [("Content-Type", "application/json")] (JsonBody data).

(** [await response.json()] *)
Definition response_json (response : Response) : M JsonResult :=
  match json_result response with
  | JsonRejects e => throw e
  | v => ret v
  end.

(** [await response.blob()] *)
Definition response_blob (response : Response) : M Blob :=
  lift (blob_result response).

(** [errorData.error] *)
Definition get_error (errorData : JsonResult) : M (option string) :=
  match errorData with
  | JsonValue e _ => ret e
  | _ => throw (TypeError (TypeError_message "errorData.error"))
  end.

(** [result.extracted_data] *)
Definition get_extracted_data (result : JsonResult) : M (list ContentItem) :=
  match result with
  | JsonValue _ d => ret d
  | _ => throw (TypeError (TypeError_message "result.extracted_data"))
  end.

(** [a || b] on an optional string: an absent or empty [a] is falsy. *)
Definition or_else (a : option string) (b : string) : string :=
  match a with
  | Some s => if String.eqb s EmptyString then b else s
  | None => b
  end.

(** The check both handlers make on a response (lines 41-46, 103-108). *)
Definition throw_unless_ok (response : Response) : M unit :=
  if negb (ok response) then
    errorData <- response_json response ;;
    error <- get_error errorData ;;
    throw (Error (or_else error ("HTTP error! status: " +++ String_of_nat (status response))))
  else ret tt.

(** The [try] block of the Extract listener (lines 36-71). *)
Definition extract_try (files : list File) : M unit :=
  response <- fetch (upload_request files) ;;
  throw_unless_ok response ;;
  result <- response_json response ;;
  data <- get_extracted_data result ;;
  modify (set_extractedData data) ;;
  data <- gets extractedData ;;
  if Nat.ltb 0 (length data) then
    displayContent data ;;
    setMessage "Content extracted successfully! You can now download the PDF." "green" ;;
    generateResponse <- fetch (generate_request data) ;;
    modify (set_downloadButton_hidden false)
  else
    setMessage "No content could be extracted from the files." "yellow" ;;
    modify (set_downloadButton_hidden true).

(** Its [catch] block. *)
Definition extract_catch (error : JsError) : M unit :=
  setMessage ("An error occurred: " +++ message error
              +++ ". Please check the server console for details.") "red".

(** The listener of the Extract button.  [event.preventDefault()] touches
    nothing that is modelled. *)
Definition extractButton_click : M unit :=
  files <- gets pdfFile_files ;;
  if Nat.eqb (length files) 0 then
    setMessage "Please select one or more PDF files first." "yellow"
  else
    setMessage ("Processing " +++ String_of_nat (length files) +++ " PDF file(s)...") "blue" ;;
    setLoading true ;;
    modify (set_downloadButton_hidden true) ;;
    clearContentPreview ;;
    try_catch_finally (extract_try files) extract_catch (setLoading false).

(** The [try] block of the Download listener (lines 97-120).  The object
    URL and the anchor element it clicks are summed up as one entry of
    [saved]. *)
Definition download_try (data : list ContentItem) : M unit :=
  response <- fetch (generate_request data) ;;
  throw_unless_ok response ;;
  blob <- response_blob response ;;
  modify (fun w => set_saved (saved w ++ [("extracted_content.pdf", blob)]) w) ;;
  setMessage "Download started for extracted_content.pdf." "green".

(** Its [catch] block. *)
Definition download_catch (error : JsError) : M unit :=
  setMessage ("An error occurred during download: " +++ message error +++ ".") "red".

(** The listener of the Download button. *)
Definition downloadButton_click : M unit :=
  data <- gets extractedData ;;
  if Nat.eqb (length data) 0 then
    setMessage "No content to download. Please extract first." "yellow"
  else
    setMessage "Generating PDF for download..." "blue" ;;
    setLoading true ;;
    try_catch_finally (download_try data) download_catch (setLoading false).

(** *** The page as a transition system *)

(** What can happen to the page: the user picks files or clicks a button.
    A handler runs to its end before the next event: while it awaits the
    network, [setLoading(true)] keeps the three controls disabled. *)
Inductive Event : Type :=
| SelectFiles (files : list File)
| ClickExtract
| ClickDownload.

Definition enabled (e : Event) (w : World) : bool :=
  match e with
  | SelectFiles _ => negb (pdfFile_disabled w)
  | ClickExtract => negb (extractButton_disabled w)
  | ClickDownload => negb (downloadButton_disabled w)
  end.

Definition handle (e : Event) : M unit :=
  match e with
  | SelectFiles files => modify (set_files files)
  | ClickExtract => extractButton_click
  | ClickDownload => downloadButton_click
  end.

(** The states the page can be in: the script starts with
    [extractedData = []]; each event meets whatever the network will answer. *)
Inductive reachable : World -> Prop :=
| reachable_start (w : World) :
    extractedData w = [] -> reachable w
| reachable_event (w : World) (e : Event) (net : list FetchOutcome) :
    reachable w -> enabled e w = true ->
    reachable (snd (handle e (set_network net w))).

End Script.

Arguments displayContent : simpl never.
Arguments String_of_nat : simpl never.
Arguments ok : simpl never.
Arguments table_block : simpl never.

(** ** Vocabulary of the properties *)

(** *** Reading the preview *)

Definition header_label (filename : string) : string :=
  "--- Content from: " +++ filename +++ " ---".

(** The group header [displayContent] builds for a file name. *)
Definition header_node (filename : string) : node :=
  Element "h3" [] ["text-xl"; "font-bold"; "text-gray-700"; "mt-6"; "mb-2"]
    [Text (header_label filename)].

(** The placeholder paragraph of [clearContentPreview], and the same after
    [displayContent] has hidden it. *)
Definition placeholder : node :=
  Element "p" [("id", "initialMessage")] ["text-gray-500"; "text-center"]
    [Text "Extracted content will appear here."].

Definition placeholder_hidden : node := classList_add "hidden" placeholder.

Definition is_header (n : node) : bool := String.eqb (tag_of n) "h3".

Definition is_placeholder (n : node) : bool := has_id "initialMessage" n.

(** Group headers of a preview, in document order. *)
Definition group_headers (ns : list node) : list node := filter is_header ns.

(** Item blocks of a preview: what is neither a group header nor the
    placeholder. *)
Definition is_item_block (n : node) : bool :=
  negb (is_header n) && negb (is_placeholder n).

Definition item_blocks (ns : list node) : list node := filter is_item_block ns.

(** The children with a given tag of a list of nodes. *)
Definition child (tag : string) (ns : list node) : list node :=
  filter (fun n => String.eqb (tag_of n) tag) (flat_map children_of ns).

(** Header cells, body rows and the cells of a row of a table block. *)
Definition header_cells (block : node) : list node :=
  child "th" (child "tr" (child "thead" (child "table" [block]))).

Definition body_rows (block : node) : list node :=
  child "tr" (child "tbody" (child "table" [block])).

Definition cells (row : node) : list node := child "td" [row].

(** *** Datasets *)

Definition recognized (item : ContentItem) : bool :=
  String.eqb (type item) "text" || String.eqb (type item) "image"
  || String.eqb (type item) "table".

(** The maximal runs of equal neighbours of a list, in order. *)
Fixpoint runs (l : list string) : list (list string) :=
  match l with
  | [] => []
  | x :: l' =>
      match runs l' with
      | (y :: r) :: rs => if String.eqb x y then (x :: y :: r) :: rs else [x] :: (y :: r) :: rs
      | rs => [x] :: rs
      end
  end.

(** No two neighbours of the list are equal. *)
Fixpoint adjacent_distinct (l : list string) : Prop :=
  match l with
  | x :: l' =>
      match l' with
      | y :: _ => x <> y /\ adjacent_distinct l'
      | [] => True
      end
  | [] => True
  end.


(** *** The page state the controls settle in *)

(** No loading indicator, the three controls usable. *)
Definition loading_cleared (w : World) : Prop :=
  extractButton_disabled w = false /\ downloadButton_disabled w = false
  /\ pdfFile_disabled w = false /\ loadingSpinner_hidden w = true.

(** The dataset of the latest call of [displayContent], if there was one. *)
Definition last_displayed (w : World) : option (list ContentItem) :=
  last (map Some (displayContent_calls w)) None.

(** The class list [setMessage] leaves on the status line. *)
Definition message_classes (colour : string) : list string :=
  ["text-center"; "text-lg"; "mb-4"; "font-semibold"; colour].

(** The class [setMessage] adds for a colour name: one class for each of the
    four names it knows, none for any other string. *)
Definition colour_class (type_ : string) : list string :=
  if String.eqb type_ "blue" then ["text-blue-700"]
  else if String.eqb type_ "green" then ["text-green-600"]
  else if String.eqb type_ "yellow" then ["text-yellow-700"]
  else if String.eqb type_ "red" then ["text-red-600"]
  else [].

(** The [source_filename] of the last item of a dataset, the empty string
    for the empty dataset: the value [currentSource] holds after a loop over
    it. *)
Definition last_source (data : list ContentItem) : string :=
  last (map source_filename data) EmptyString.

(** No node of the list carries the id of the placeholder. *)
Definition no_placeholder (ns : list node) : bool :=
  forallb (fun n => negb (is_placeholder n)) ns.

(** ** A page and an engine for the worked examples *)

Definition dquote : string := String (ascii_of_nat 34) EmptyString.

Definition quoted (s : string) : string := dquote +++ s +++ dquote.

(** The table payload of the specification's scenario:
    an object with columns X, Y and data rows 1,2 and 3,4. *)
Definition scenario_table : string :=
  "{" +++ quoted "columns" +++ ":[" +++ quoted "X" +++ "," +++ quoted "Y" +++ "],"
  +++ quoted "data" +++ ":[[1,2],[3,4]]}".

(** What that payload denotes. *)
Definition scenario_columns : list (json nat) := [JString "X"; JString "Y"].

Definition scenario_rows : list (list (json nat)) :=
  [[JNumber 1; JNumber 2]; [JNumber 3; JNumber 4]].

(** A table payload with one column, A, and one row, whose only cell is an
    object with a property [toString] of its own (of value 1); and what the
    payload denotes. *)
Definition overriding_table : string :=
  "{" +++ quoted "columns" +++ ":[" +++ quoted "A" +++ "],"
  +++ quoted "data" +++ ":[[{" +++ quoted "toString" +++ ":1}]]}".

Definition overriding_columns : list (json nat) := [JString "A"].

Definition overriding_rows : list (list (json nat)) :=
  [[JObject [("toString", JNumber 1)]]].

(** An engine that answers as every engine does on the texts the examples
    parse: each of the two payloads is the object it denotes, and a text
    that is not JSON is a SyntaxError. *)
Definition example_engine : Platform := {|
  number := nat;
  Number_toString := String_of_nat;
  JSON_parse := fun text =>
    if String.eqb text scenario_table then
      inr (JObject [("columns", JArray scenario_columns);
                    ("data", JArray (map JArray scenario_rows))])
    else if String.eqb text overriding_table then
      inr (JObject [("columns", JArray overriding_columns);
                    ("data", JArray (map JArray overriding_rows))])
    else inl ("Unexpected token in JSON: " +++ text);
  TypeError_message := fun what => "Cannot evaluate " +++ what
|}.

(** The page before any event, nothing selected, nothing in flight. *)
Definition example_page : World :=
  mkWorld [] [] false false false true true true EmptyString [] [placeholder] [] [] [] [].

Definition example_file : File := mkFile "a.pdf" "%PDF-1.7".

(** The dataset of the specification's first scenario. *)
Definition scenario_dataset : list ContentItem :=
  [mkItem "a.pdf" "text" EmptyString "Hello";
   mkItem "a.pdf" "text" EmptyString "World";
   mkItem "b.pdf" "text" EmptyString "Foo"].

(** A table item carrying the scenario's payload, a table item whose
    content is not JSON, an item of a type the renderer does not know, a
    text item made of markup characters, and a text item of a file whose
    name is empty. *)
Definition table_item : ContentItem := mkItem "a.pdf" "table" "Totals" scenario_table.

Definition broken_table_item : ContentItem := mkItem "a.pdf" "table" "Totals" "not json".


Definition audio_item : ContentItem := mkItem "a.pdf" "audio" "Track" "third".

Definition image_item : ContentItem :=
  mkItem "a.pdf" "image" "Figure 1" "data:image/png;base64,AAAA".

Definition markup_item : ContentItem :=
  mkItem "a.pdf" "text" EmptyString "<img src=x onerror=alert(1)><b>bold</b>".


(** Responses of the service: a successful extraction, a generated PDF, a
    failure that reports its reason, a failure with no body at all. *)
Definition extraction_response (data : list ContentItem) : Response :=
  mkResponse 200 (JsonValue None data) (inr EmptyString).

Definition pdf_response : Response :=
  mkResponse 200 (JsonRejects (SyntaxError "Unexpected token % in JSON at position 0"))
    (inr "%PDF-1.7").

Definition disk_full_response : Response :=
  mkResponse 500 (JsonValue (Some "disk full") []) (inr EmptyString).

Definition bodyless_response : Response :=
  mkResponse 500 (JsonRejects (SyntaxError "Unexpected end of JSON input"))
    (inr EmptyString).

(** The rejection of a [fetch] that reaches no server. *)
Definition failed_to_fetch : JsError := TypeError "Failed to fetch".

(** The example page with one file selected; after a successful extraction
    of the scenario's dataset; and after a further extraction that failed. *)
Definition page_with_file : World := set_files [example_file] example_page.

Definition page_after_extraction : World :=
  snd (handle (platform := example_engine) ClickExtract
         (set_network [inr (extraction_response scenario_dataset); inr pdf_response]
            page_with_file)).

Definition page_after_failure : World :=
  snd (handle (platform := example_engine) ClickExtract
         (set_network [inl failed_to_fetch] page_after_extraction)).

(** ** What one rendering adds to the preview *)

Section Summary.

Context {platform : Platform}.

(** A computation that neither reads nor writes the page and never waits. *)
Definition stateless {A : Type} (c : M A) : Prop :=
  forall w w' : World, c w = (fst (c w'), w) /\ fst (c w) <> Pending.

(** The outcome of the table branch for an item. *)
Definition table_outcome (item : ContentItem) : Outcome node :=
  fst (table_block item example_page).

(** One call of the [forEach] callback, run on an empty preview: how it ends
    and the nodes it appends. *)
Definition step_outcome (currentSource : string) (item : ContentItem)
  : Outcome string * list node :=
  let r := forEach_item currentSource item (set_contentPreview [] example_page) in
  (fst r, contentPreview (snd r)).

(** The group header due before an item, if any, and the item's own block. *)
Definition header_part (currentSource : string) (item : ContentItem) : list node :=
  if String.eqb currentSource (source_filename item) then []
  else [header_node (source_filename item)].

Definition block_part (item : ContentItem) : list node :=
  snd (step_outcome (source_filename item) item).

(** The whole loop: how it ends and everything it appends. *)
Fixpoint trace (currentSource : string) (data : list ContentItem)
  : Outcome string * list node :=
  match data with
  | [] => (Ok currentSource, [])
  | item :: rest =>
      match step_outcome currentSource item with
      | (Ok currentSource', ns) =>
          let r := trace currentSource' rest in (fst r, ns ++ snd r)
      | other => other
      end
  end.

(** An outcome without its value. *)
Definition forget {A : Type} (o : Outcome A) : Outcome unit :=
  match o with
  | Ok _ => Ok tt
  | Throw e => Throw e
  | Pending => Pending
  end.

(** How [displayContent data] ends and the preview it leaves
    ([displayContent_run] below). *)
Definition displayed (data : list ContentItem) : Outcome unit * list node :=
  (forget (fst (trace EmptyString data)),
   placeholder_hidden :: snd (trace EmptyString data)).

(** *** What one run of a handler does to the page *)

(** The page after [setMessage text _], a message in the given colour class. *)
Definition shown (text colour : string) (w : World) : World :=
  set_messageDiv text (message_classes colour) w.

(** The page after [setLoading b]. *)
Definition loading (b : bool) (w : World) : World :=
  set_loadingSpinner_hidden (negb b) (set_disabled b w).

(** The page after [clearContentPreview()]. *)
Definition cleared (w : World) : World :=
  set_contentPreview [placeholder] (set_previewTitle_hidden true w).

(** The page after [displayContent(data)]. *)
Definition rendered (data : list ContentItem) (w : World) : World :=
  set_contentPreview (snd (displayed data))
    (set_previewTitle_hidden false
       (set_displayContent_calls (displayContent_calls w ++ [data]) w)).

(** A request has been issued; it has been answered, [net] being what the
    network holds for later requests. *)
Definition issued (rq : Request) (w : World) : World :=
  set_requests (requests w ++ [rq]) w.

Definition answered (rq : Request) (net : list FetchOutcome) (w : World) : World :=
  set_network net (issued rq w).

(** The exception [throw_unless_ok] raises for a response that is not ok. *)
Definition rejection (r : Response) : JsError :=
  match json_result r with
  | JsonRejects e => e
  | JsonNull => TypeError (TypeError_message "errorData.error")
  | JsonValue error _ =>
      Error (or_else error ("HTTP error! status: " +++ String_of_nat (status r)))
  end.

(** The exception the answer to the upload request makes the [try] block
    raise before it assigns [extractedData], if it does: the rejection of
    [fetch], the exception for a response that is not ok, the rejection of
    [response.json()], or the TypeError of reading a property of [null]. *)
Definition upload_failure (answer : FetchOutcome) : option JsError :=
  match answer with
  | inl e => Some e
  | inr r =>
      if ok r then
        match json_result r with
        | JsonRejects e => Some e
        | JsonNull => Some (TypeError (TypeError_message "result.extracted_data"))
        | JsonValue _ _ => None
        end
      else Some (rejection r)
  end.

(** How the [try] block of the Extract listener ends, by cases on what the
    network answers ([extract_try_run] below proves it of [extract_try]). *)
Definition extract_try_result (files : list File) (w : World) : Outcome unit * World :=
  match network w with
  | [] => (Pending, issued (upload_request files) w)
  | inl e :: net => (Throw e, answered (upload_request files) net w)
  | inr r :: net =>
      let w1 := answered (upload_request files) net w in
      if ok r then
        match json_result r with
        | JsonRejects e => (Throw e, w1)
        | JsonNull => (Throw (TypeError (TypeError_message "result.extracted_data")), w1)
        | JsonValue _ [] =>
            (Ok tt,
             set_downloadButton_hidden true
               (shown "No content could be extracted from the files." "text-yellow-700"
                  (set_extractedData [] w1)))
        | JsonValue _ (item :: rest) =>
            let data := item :: rest in
            let w2 := rendered data (set_extractedData data w1) in
            match fst (displayed data) with
            | Ok _ =>
                let w3 :=
                  shown "Content extracted successfully! You can now download the PDF."
                    "text-green-600" w2 in
                match net with
                | [] => (Pending, issued (generate_request data) w3)
                | inl e :: net' => (Throw e, answered (generate_request data) net' w3)
                | inr _ :: net' =>
                    (Ok tt,
                     set_downloadButton_hidden false
                       (answered (generate_request data) net' w3))
                end
            | Throw e => (Throw e, w2)
            | Pending => (Pending, w2)
            end
        end
      else (Throw (rejection r), w1)
  end.

(** How [try ... catch ... finally { setLoading(false) }] ends, given how
    the [try] block ended and the text the [catch] block shows. *)
Definition settle (catch_text : JsError -> string) (r : Outcome unit * World)
  : Outcome unit * World :=
  match r with
  | (Ok a, w1) => (Ok a, loading false w1)
  | (Throw e, w1) => (Ok tt, loading false (shown (catch_text e) "text-red-600" w1))
  | (Pending, w1) => (Pending, w1)
  end.

Definition extract_catch_text (error : JsError) : string :=
  "An error occurred: " +++ message error
  +++ ". Please check the server console for details.".

Definition download_catch_text (error : JsError) : string :=
  "An error occurred during download: " +++ message error +++ ".".

(** How a click on Extract ends ([extractButton_click_run] below). *)
Definition extract_result (w : World) : Outcome unit * World :=
  match pdfFile_files w with
  | [] => (Ok tt, shown "Please select one or more PDF files first." "text-yellow-700" w)
  | file :: more =>
      let files := file :: more in
      settle extract_catch_text
        (extract_try_result files
           (cleared
              (set_downloadButton_hidden true
                 (loading true
                    (shown ("Processing " +++ String_of_nat (length files)
                            +++ " PDF file(s)...") "text-blue-700" w)))))
  end.

(** How the [try] block of the Download listener ends ([download_try_run]
    below). *)
Definition download_try_result (data : list ContentItem) (w : World)
  : Outcome unit * World :=
  match network w with
  | [] => (Pending, issued (generate_request data) w)
  | inl e :: net => (Throw e, answered (generate_request data) net w)
  | inr r :: net =>
      let w1 := answered (generate_request data) net w in
      if ok r then
        match blob_result r with
        | inl e => (Throw e, w1)
        | inr blob =>
            (Ok tt,
             shown "Download started for extracted_content.pdf." "text-green-600"
               (set_saved (saved w1 ++ [("extracted_content.pdf", blob)]) w1))
        end
      else (Throw (rejection r), w1)
  end.

(** How a click on Download ends ([downloadButton_click_run] below). *)
Definition download_result (w : World) : Outcome unit * World :=
  match extractedData w with
  | [] => (Ok tt, shown "No content to download. Please extract first." "text-yellow-700" w)
  | item :: rest =>
      settle download_catch_text
        (download_try_result (item :: rest)
           (loading true (shown "Generating PDF for download..." "text-blue-700" w)))
  end.

End Summary.

(** * Properties *)

Section Properties.

Context {platform : Platform}.

(** ** Stateless computations *)

Lemma stateless_ret (A : Type) (a : A) : stateless (ret a).
Proof. intros w w'. split; [reflexivity | discriminate]. Qed.

Lemma stateless_throw (A : Type) (e : JsError) : stateless (@throw A e).
Proof. intros w w'. split; [reflexivity | discriminate]. Qed.

Lemma stateless_lift (A : Type) (r : JsError + A) : stateless (lift r).
Proof. destruct r; [apply stateless_throw | apply stateless_ret]. Qed.

Lemma stateless_bind (A B : Type) (c : M A) (k : A -> M B) :
  stateless c -> (forall a, stateless (k a)) -> stateless (bind c k).
Proof.
  intros Hc Hk w w'. unfold bind.
  destruct (Hc w w') as [E1 N1]. destruct (Hc w' w') as [E2 _].
  rewrite E1 in N1. rewrite E1, E2. cbn in *.
  destruct (fst (c w')) as [a | e | ].
  - apply Hk.
  - split; [reflexivity | discriminate].
  - now elim N1.
Qed.

Lemma stateless_foldM (A B : Type) (f : A -> B -> M A) (l : list B) :
  (forall a x, stateless (f a x)) -> forall a, stateless (foldM f l a).
Proof.
  intros Hf. induction l as [| x l IH]; intros a; cbn [foldM].
  - apply stateless_ret.
  - apply stateless_bind; [apply Hf | exact IH].
Qed.

Ltac stateless_step :=
  first [ apply stateless_ret | apply stateless_throw | apply stateless_lift
        | apply stateless_foldM; intros | apply stateless_bind; [| intros] ].

Lemma table_block_stateless (item : ContentItem) : stateless (table_block item).
Proof. unfold table_block. repeat stateless_step. Qed.

Lemma table_block_run (item : ContentItem) (w : World) :
  table_block item w = (table_outcome item, w).
Proof. apply table_block_stateless. Qed.

Lemma table_outcome_returns (item : ContentItem) : table_outcome item <> Pending.
Proof. apply (table_block_stateless item example_page example_page). Qed.

(** ** One call of the callback, on any page *)

Lemma forEach_item_run (currentSource : string) (item : ContentItem) (w : World) :
  forEach_item currentSource item w =
  (fst (step_outcome currentSource item),
   set_contentPreview (contentPreview w ++ snd (step_outcome currentSource item)) w).
Proof.
  destruct w.
  unfold step_outcome, forEach_item, bind, contentPreview_appendChild, modify, ret.
  destruct (String.eqb currentSource (source_filename item)); cbn;
    destruct (String.eqb (type item) "text"); cbn;
    try (rewrite ?app_nil_r, <- ?app_assoc; reflexivity);
    destruct (String.eqb (type item) "image"); cbn;
    try (rewrite ?app_nil_r, <- ?app_assoc; reflexivity);
    destruct (String.eqb (type item) "table"); cbn;
    try (rewrite ?app_nil_r, <- ?app_assoc; reflexivity);
    rewrite ?table_block_run; destruct (table_outcome item); cbn;
    rewrite ?app_nil_r, <- ?app_assoc; reflexivity.
Qed.

Lemma foldM_forEach_item_run (data : list ContentItem) :
  forall (currentSource : string) (w : World),
    foldM forEach_item data currentSource w =
    (fst (trace currentSource data),
     set_contentPreview (contentPreview w ++ snd (trace currentSource data)) w).
Proof.
  induction data as [| item rest IH]; intros cur w; cbn [foldM trace].
  - destruct w; cbn. now rewrite app_nil_r.
  - unfold bind. rewrite forEach_item_run.
    destruct (step_outcome cur item) as [[c | e |] ns]; cbn [fst snd]; try reflexivity.
    rewrite IH. destruct w; cbn. now rewrite app_assoc.
Qed.

Lemma displayContent_run (data : list ContentItem) (w : World) :
  displayContent data w = (fst (displayed data), rendered data w).
Proof.
  unfold displayContent, rendered, displayed, clearContentPreview,
    contentPreview_appendChild, bind, modify, ret.
  cbn. rewrite foldM_forEach_item_run. cbn.
  destruct (fst (trace EmptyString data)); destruct w; reflexivity.
Qed.

Lemma step_outcome_returns (cur : string) (item : ContentItem) :
  fst (step_outcome cur item) <> Pending.
Proof.
  unfold step_outcome, forEach_item, bind, contentPreview_appendChild, modify, ret.
  destruct (String.eqb cur (source_filename item)); cbn;
    destruct (String.eqb (type item) "text"); cbn; try discriminate;
    destruct (String.eqb (type item) "image"); cbn; try discriminate;
    destruct (String.eqb (type item) "table"); cbn; try discriminate;
    rewrite ?table_block_run; pose proof (table_outcome_returns item);
    destruct (table_outcome item); cbn; congruence.
Qed.

Lemma trace_returns (data : list ContentItem) :
  forall cur, fst (trace cur data) <> Pending.
Proof.
  induction data as [| item rest IH]; intros cur; cbn [trace]; [discriminate |].
  pose proof (step_outcome_returns cur item) as H.
  destruct (step_outcome cur item) as [[c | e |] ns]; cbn in *;
    [apply IH | discriminate | congruence].
Qed.

Lemma displayed_returns (data : list ContentItem) : fst (displayed data) <> Pending.
Proof.
  unfold displayed. cbn. pose proof (trace_returns data EmptyString).
  destruct (fst (trace EmptyString data)); cbn; congruence.
Qed.

(** ** Shape of what one call appends *)

Lemma bind_Ok (A B : Type) (c : M A) (k : A -> M B) (w w' : World) (b : B) :
  bind c k w = (Ok b, w') ->
  exists a w1, c w = (Ok a, w1) /\ k a w1 = (Ok b, w').
Proof.
  unfold bind. destruct (c w) as [[a | e |] w1]; intros H; try discriminate.
  now exists a, w1.
Qed.

Lemma table_block_shape (item : ContentItem) (w w' : World) (n : node) :
  table_block item w = (Ok n, w') ->
  exists ch, n = Element "div" [] ["my-4"; "overflow-x-auto"] ch.
Proof.
  unfold table_block. intros H.
  repeat (apply bind_Ok in H; destruct H as (? & ? & _ & H)).
  injection H as <- _. cbn. eauto.
Qed.

Lemma table_outcome_shape (item : ContentItem) (n : node) :
  table_outcome item = Ok n ->
  exists ch, n = Element "div" [] ["my-4"; "overflow-x-auto"] ch.
Proof.
  intros H. apply (table_block_shape item example_page example_page).
  now rewrite table_block_run, H.
Qed.

Ltac step_cases cur item :=
  unfold block_part, header_part, step_outcome, forEach_item, bind,
    contentPreview_appendChild, modify, ret;
  rewrite ?String.eqb_refl;
  destruct (String.eqb cur (source_filename item)); cbn;
  (destruct (String.eqb (type item) "text") eqn:Etext; cbn;
   [ | destruct (String.eqb (type item) "image") eqn:Eimage; cbn;
       [ | destruct (String.eqb (type item) "table") eqn:Etable; cbn;
           [ rewrite ?table_block_run;
             pose proof (table_outcome_returns item);
             pose proof (table_outcome_shape item);
             destruct (table_outcome item); cbn | ] ] ]).

Lemma step_outcome_split (cur : string) (item : ContentItem) :
  snd (step_outcome cur item) = header_part cur item ++ block_part item.
Proof. step_cases cur item; reflexivity. Qed.

Lemma step_outcome_fst (cur : string) (item : ContentItem) :
  fst (step_outcome cur item) = fst (step_outcome (source_filename item) item).
Proof.
  destruct (String.eqb_spec cur (source_filename item)) as [-> | Hne]; [reflexivity |].
  apply String.eqb_neq in Hne.
  unfold step_outcome, forEach_item, bind, contentPreview_appendChild, modify, ret.
  rewrite Hne, String.eqb_refl. cbn.
  destruct (String.eqb (type item) "text"); cbn; [reflexivity |].
  destruct (String.eqb (type item) "image"); cbn; [reflexivity |].
  destruct (String.eqb (type item) "table"); cbn; [| reflexivity].
  rewrite !table_block_run. destruct (table_outcome item); reflexivity.
Qed.

Lemma step_outcome_Ok (cur : string) (item : ContentItem) (c : string) :
  fst (step_outcome cur item) = Ok c -> c = source_filename item.
Proof.
  destruct (String.eqb_spec cur (source_filename item)) as [-> | Hne].
  - step_cases (source_filename item) item; congruence.
  - apply String.eqb_neq in Hne. revert Hne. intros Hne.
    unfold step_outcome, forEach_item, bind, contentPreview_appendChild, modify, ret.
    rewrite Hne. cbn.
    destruct (String.eqb (type item) "text"); cbn; [congruence |].
    destruct (String.eqb (type item) "image"); cbn; [congruence |].
    destruct (String.eqb (type item) "table"); cbn; [| congruence].
    rewrite !table_block_run. destruct (table_outcome item); cbn; congruence.
Qed.

Lemma block_part_Ok (cur : string) (item : ContentItem) (c : string) :
  fst (step_outcome cur item) = Ok c ->
  length (block_part item) = (if recognized item then 1 else 0)
  /\ forallb is_item_block (block_part item) = true.
Proof.
  rewrite step_outcome_fst. unfold recognized.
  step_cases (source_filename item) item; intros Hok; try discriminate;
    try (split; reflexivity).
  all: destruct (H0 a eq_refl) as [ch ->]; split; reflexivity.
Qed.

Lemma block_part_Throw (cur : string) (item : ContentItem) (e : JsError) :
  fst (step_outcome cur item) = Throw e -> block_part item = [].
Proof.
  rewrite step_outcome_fst.
  step_cases (source_filename item) item; intros Hok; try discriminate; reflexivity.
Qed.

Lemma step_outcome_unrecognized (cur : string) (item : ContentItem) :
  recognized item = false ->
  step_outcome cur item = (Ok (source_filename item), header_part cur item).
Proof.
  unfold recognized. intros H.
  apply orb_false_elim in H as [H Htable]. apply orb_false_elim in H as [Htext Himage].
  unfold header_part, step_outcome, forEach_item, bind, contentPreview_appendChild,
    modify, ret.
  rewrite Htext, Himage, Htable.
  destruct (String.eqb_spec cur (source_filename item)) as [-> | Hne]; reflexivity.
Qed.

(** ** Maximal runs *)


Lemma runs_concat (l : list string) : concat (runs l) = l.
Proof.
  induction l as [| x l IH]; [reflexivity |].
  cbn. destruct (runs l) as [| [| y r] rs]; cbn in *; try (now rewrite IH).
  destruct (String.eqb x y); cbn; now rewrite IH.
Qed.

Lemma runs_constant (l : list string) :
  Forall (fun r => exists x, hd_error r = Some x /\ Forall (eq x) r) (runs l).
Proof.
  induction l as [| x l IH]; [constructor |].
  cbn. destruct (runs l) as [| [| y r] rs].
  - repeat constructor. exists x. repeat constructor.
  - constructor; [| exact IH]. exists x. repeat constructor.
  - inversion IH as [| ? ? (z & Hz & Hall) Hrs]; subst. injection Hz as <-.
    destruct (String.eqb_spec x y) as [-> | Hne].
    + constructor; [| exact Hrs]. exists y. split; [reflexivity | now constructor].
    + constructor; [| exact IH]. exists x. repeat constructor.
Qed.

Lemma runs_maximal (l : list string) :
  adjacent_distinct (map (hd EmptyString) (runs l)).
Proof.
  induction l as [| x l IH]; [exact I |].
  pose proof (runs_constant l) as Hc.
  cbn [runs]. destruct (runs l) as [| [| y r] rs]; [exact I | |].
  - inversion Hc as [| ? ? (z & Hz & _) _]. discriminate.
  - destruct (String.eqb_spec x y) as [-> | Hne]; [exact IH |].
    cbn [map hd]. split; [exact Hne | exact IH].
Qed.



(** ** What the loop leaves in the preview *)


Lemma header_part_filters (cur : string) (item : ContentItem) :
  group_headers (header_part cur item) = header_part cur item
  /\ item_blocks (header_part cur item) = [].
Proof. unfold header_part. destruct (String.eqb _ _); split; reflexivity. Qed.


Lemma step_outcome_eq (cur : string) (item : ContentItem) :
  step_outcome cur item
  = (fst (step_outcome (source_filename item) item),
     header_part cur item ++ block_part item).
Proof.
  rewrite <- (step_outcome_split cur item), <- (step_outcome_fst cur item).
  now destruct (step_outcome cur item).
Qed.

Lemma trace_cons (cur : string) (item : ContentItem) (rest : list ContentItem) :
  trace cur (item :: rest)
  = match fst (step_outcome (source_filename item) item) with
    | Ok _ => (fst (trace (source_filename item) rest),
               (header_part cur item ++ block_part item)
               ++ snd (trace (source_filename item) rest))
    | Throw e => (Throw e, header_part cur item ++ block_part item)
    | Pending => (Pending, header_part cur item ++ block_part item)
    end.
Proof.
  cbn [trace]. rewrite step_outcome_eq.
  pose proof (step_outcome_Ok (source_filename item) item) as H.
  destruct (fst (step_outcome (source_filename item) item)); try reflexivity.
  now rewrite (H a eq_refl).
Qed.

Lemma trace_blocks_indep (data : list ContentItem) (cur cur' : string) :
  item_blocks (snd (trace cur data)) = item_blocks (snd (trace cur' data))
  /\ forget (fst (trace cur data)) = forget (fst (trace cur' data)).
Proof.
  destruct data as [| item rest]; [easy |].
  rewrite !trace_cons.
  destruct (header_part_filters cur item) as [_ Hh].
  destruct (header_part_filters cur' item) as [_ Hh'].
  unfold item_blocks in *.
  destruct (fst (step_outcome (source_filename item) item)); cbn [fst snd];
    rewrite ?filter_app, Hh, Hh'; easy.
Qed.

Lemma trace_skip (data1 data2 : list ContentItem) (item : ContentItem) :
  recognized item = false ->
  forall cur,
    item_blocks (snd (trace cur (data1 ++ item :: data2)))
    = item_blocks (snd (trace cur (data1 ++ data2)))
    /\ forget (fst (trace cur (data1 ++ item :: data2)))
       = forget (fst (trace cur (data1 ++ data2))).
Proof.
  intros Hrec. induction data1 as [| x data1 IH]; intros cur; cbn [app].
  - rewrite trace_cons, step_outcome_unrecognized by exact Hrec. cbn [fst snd].
    pose proof (step_outcome_unrecognized (source_filename item) item Hrec) as E.
    unfold block_part. rewrite E. cbn [snd].
    destruct (trace_blocks_indep data2 (source_filename item) cur) as [H1 H2].
    split; [| exact H2].
    unfold item_blocks in *. rewrite !filter_app, H1.
    destruct (header_part_filters cur item) as [_ Hh].
    destruct (header_part_filters (source_filename item) item) as [_ Hh'].
    unfold item_blocks in Hh, Hh'. now rewrite Hh, Hh'.
  - rewrite !trace_cons.
    destruct (fst (step_outcome (source_filename x) x)); cbn [fst snd]; try easy.
    destruct (IH (source_filename x)) as [H1 H2]. split; [| exact H2].
    unfold item_blocks in *. now rewrite !filter_app, H1.
Qed.

Lemma textContent_set_textContent (s t : string) (a : list (string * string))
    (c : list string) (ch : list node) :
  textContent (set_textContent s (Element t a c ch)) = s.
Proof.
  cbn. destruct (String.eqb_spec s EmptyString) as [-> | _]; reflexivity.
Qed.

(** * The claims about the renderer *)



(** C7, as amended.  For an item whose type is none of [text], [image],
    [table] the callback raises no error and appends no item block: all it
    can append is the group header of the item's [source_filename], which it
    does exactly when that name differs from the tracked value.  Taking such
    an item out of a dataset changes neither the item blocks of the preview
    nor the way the rendering ends. *)
Theorem C7_unrecognized_type_adds_no_block (item : ContentItem) :
  recognized item = false ->
  (forall cur w,
      forEach_item cur item w
      = (Ok (source_filename item),
         set_contentPreview
           (contentPreview w
            ++ (if String.eqb cur (source_filename item) then []
                else [header_node (source_filename item)])) w))
  /\ (forall data1 data2 w,
        fst (displayContent (data1 ++ item :: data2) w)
        = fst (displayContent (data1 ++ data2) w)
        /\ item_blocks (contentPreview (snd (displayContent (data1 ++ item :: data2) w)))
           = item_blocks (contentPreview (snd (displayContent (data1 ++ data2) w)))).
Proof.
  intros Hrec. split.
  - intros cur w. rewrite forEach_item_run, step_outcome_unrecognized by exact Hrec.
    reflexivity.
  - intros data1 data2 w. rewrite !displayContent_run. unfold displayed. cbn [fst snd].
    destruct (trace_skip data1 data2 item Hrec EmptyString) as [H1 H2].
    split; [exact H2 |]. destruct w; cbn.
    exact H1.
Qed.

(** ** The table branch *)

Lemma fold_left_appendChild (B : Type) (mk : B -> node) (l : list B)
    (t : string) (a : list (string * string)) (c : list string) (ch : list node) :
  fold_left (fun parent x => appendChild parent (mk x)) l (Element t a c ch)
  = Element t a c (ch ++ map mk l).
Proof.
  revert ch. induction l as [| x l IH]; intros ch; cbn.
  - now rewrite app_nil_r.
  - rewrite IH, <- app_assoc. reflexivity.
Qed.

Lemma filter_tag_map (B : Type) (tag : string) (mk : B -> node) (l : list B) :
  (forall x, tag_of (mk x) = tag) ->
  filter (fun n => String.eqb (tag_of n) tag) (map mk l) = map mk l.
Proof.
  intros H. induction l as [| x l IH]; [reflexivity |].
  cbn. now rewrite H, String.eqb_refl, IH.
Qed.

(** A loop whose callback succeeds on every element it meets. *)
Lemma foldM_Forall2_Ok (A B C : Type) (f : A -> B -> M A) (g : A -> C -> A)
    (R : B -> C -> Prop) :
  (forall a x c w, R x c -> f a x w = (Ok (g a c), w)) ->
  forall l cs, Forall2 R l cs ->
  forall a w, foldM f l a w = (Ok (fold_left g cs a), w).
Proof.
  intros H l cs HR. induction HR as [| x c l cs Hx _ IH]; intros a w; [reflexivity |].
  cbn. unfold bind. rewrite (H _ _ _ _ Hx). apply IH.
Qed.

Lemma textContent_cell (t : string) (a : list (string * string)) (c : list string)
    (s : string) :
  textContent (Element t a c (if String.eqb s EmptyString then [] else [Text s])) = s.
Proof. destruct (String.eqb_spec s EmptyString) as [-> | _]; reflexivity. Qed.

(** *** Values that have a string form *)

Lemma value_nested_ind (P : value -> Prop) :
  P JNull -> (forall b, P (JBool b)) -> (forall n, P (JNumber n)) ->
  (forall s, P (JString s)) ->
  (forall l, Forall P l -> P (JArray l)) ->
  (forall ps, P (JObject ps)) ->
  forall v, P v.
Proof.
  intros HNull HBool HNumber HString HArray HObject.
  fix IH 1.
  intros [| b | n | s | l | ps];
    [exact HNull | apply HBool | apply HNumber | apply HString | | apply HObject].
  apply HArray. induction l as [| x l IHl]; constructor; [apply IH | exact IHl].
Qed.

Lemma join_inr (parts : list (JsError + string)) :
  Forall (fun r => exists s, r = inr s) parts -> exists s, join parts = inr s.
Proof.
  induction 1 as [| r parts (s & ->) _ (t & IH)]; [now exists EmptyString |].
  cbn [join]. rewrite IH. destruct parts; eauto.
Qed.

Lemma join_all_inl (parts : list (JsError + string)) (e : JsError) :
  Forall (fun r => r = inl e \/ exists s, r = inr s) parts ->
  Exists (fun r => r = inl e) parts ->
  join parts = inl e.
Proof.
  induction 1 as [| r parts Hr Hall IH]; intros Hex; [inversion Hex |].
  destruct Hr as [-> | (s & ->)]; [reflexivity |].
  inversion Hex as [? ? Hhd | ? ? Htl]; subst; [discriminate |].
  cbn [join]. rewrite (IH Htl). now destruct parts; [inversion Htl |].
Qed.

(** The conversion to a string raises exactly on the unprintable values,
    and what it raises is a TypeError. *)
Lemma ToString_unprintable (v : value) :
  if unprintable v
  then ToString v = inl (TypeError (TypeError_message "String(value)"))
  else exists s, ToString v = inr s.
Proof.
  induction v as [| [] | n | s | l IH | ps] using value_nested_ind;
    cbn [unprintable ToString]; eauto.
  - match goal with |- context [map ?f l] => set (F := f) end.
    assert (Hparts : forall x, In x l ->
                       if unprintable x
                       then F x = inl (TypeError (TypeError_message "String(value)"))
                       else exists s, F x = inr s).
    { rewrite Forall_forall in IH. intros x Hx. specialize (IH x Hx).
      destruct x; cbn in *; eauto. }
    destruct (existsb unprintable l) eqn:Ex.
    + apply join_all_inl.
      * apply Forall_forall. intros r Hr. apply in_map_iff in Hr as (x & <- & Hx).
        specialize (Hparts x Hx). destruct (unprintable x); [now left | now right].
      * apply existsb_exists in Ex as (x & Hx & Hu). apply Exists_exists.
        exists (F x). split; [now apply in_map |].
        specialize (Hparts x Hx). now rewrite Hu in Hparts.
    + apply join_inr. apply Forall_forall. intros r Hr.
      apply in_map_iff in Hr as (x & <- & Hx). specialize (Hparts x Hx).
      destruct (unprintable x) eqn:Hu; [| exact Hparts].
      assert (existsb unprintable l = true) by (apply existsb_exists; eauto).
      congruence.
  - destruct (property "toString" ps); eauto.
Qed.

Lemma DOMString_of_unprintable (v : value) :
  if unprintable v
  then DOMString_of v = inl (TypeError (TypeError_message "String(value)"))
  else exists s, DOMString_of v = inr s.
Proof.
  pose proof (ToString_unprintable v) as H.
  destruct v; cbn [DOMString_of unprintable] in *; eauto.
Qed.

Lemma printable_texts (l : list value) :
  existsb unprintable l = false ->
  exists texts : list string, Forall2 (fun v t => DOMString_of v = inr t) l texts.
Proof.
  induction l as [| v l IH]; cbn [existsb]; [now exists [] |].
  intros H. apply orb_false_elim in H as [Hv Hl].
  destruct (IH Hl) as (texts & Htexts).
  pose proof (DOMString_of_unprintable v) as Hs. rewrite Hv in Hs.
  destruct Hs as (s & Hs). exists (s :: texts). now constructor.
Qed.


(** *** The table of a well-formed payload *)

Lemma table_block_cells (item : ContentItem) (w : World)
    (ps : list (string * value)) (cols : list value) (rows : list (list value))
    (col_texts : list string) (row_texts : list (list string)) :
  JSON_parse (content item) = inr (JObject ps) ->
  property "columns" ps = Some (JArray cols) ->
  property "data" ps = Some (JArray (map JArray rows)) ->
  Forall2 (fun v t => DOMString_of v = inr t) cols col_texts ->
  Forall2 (Forall2 (fun v t => DOMString_of v = inr t)) rows row_texts ->
  exists block,
    table_block item w = (Ok block, w)
    /\ map textContent (header_cells block) = col_texts
    /\ map (fun tr => map textContent (cells tr)) (body_rows block) = row_texts.
Proof.
  intros Hparse Hcols Hdata Hct Hrt.
  unfold table_block, bind, lift. rewrite Hparse. cbn.
  rewrite Hcols, Hdata. cbn.
  match goal with
  | |- context [foldM ?f cols ?a w] =>
      rewrite (foldM_Forall2_Ok _ _ _ f
                 (fun headerRow text =>
                    appendChild headerRow
                      (Element "th" [("scope", "col")] ["px-6"; "py-3"]
                         (if String.eqb text EmptyString then [] else [Text text])))
                 (fun v t => DOMString_of v = inr t)) with (cs := col_texts)
  end; [| intros a x c w0 Hx; unfold bind, lift; now rewrite Hx | exact Hct].
  unfold createElement. rewrite fold_left_appendChild.
  match goal with
  | |- context [foldM ?f (map JArray rows) ?a w] =>
      rewrite (foldM_Forall2_Ok _ _ _ f
                 (fun tbody texts =>
                    appendChild tbody
                      (fold_left
                         (fun tr text =>
                            appendChild tr
                              (Element "td" [] ["px-6"; "py-4"]
                                 (if String.eqb text EmptyString then [] else [Text text])))
                         texts (Element "tr" [] ["hover:bg-gray-100"] [])))
                 (fun v texts =>
                    exists cs, v = JArray cs
                               /\ Forall2 (fun v t => DOMString_of v = inr t) cs texts))
        with (cs := row_texts)
  end.
  2:{ intros a x c w0 (cs & -> & Hcs). cbn.
      match goal with
      | |- context [foldM ?f cs ?a0 w0] =>
          rewrite (foldM_Forall2_Ok _ _ _ f
                     (fun tr text =>
                        appendChild tr
                          (Element "td" [] ["px-6"; "py-4"]
                             (if String.eqb text EmptyString then [] else [Text text])))
                     (fun v t => DOMString_of v = inr t)) with (cs := c)
      end; [reflexivity | | exact Hcs].
      intros a1 x1 c1 w1 Hx. unfold bind, lift. now rewrite Hx. }
  2:{ clear -Hrt. induction Hrt; cbn [map]; constructor; eauto. }
  rewrite fold_left_appendChild. cbn.
  eexists. split; [reflexivity |].
  unfold header_cells, body_rows, cells, child. cbn.
  rewrite !app_nil_r.
  rewrite !filter_tag_map by (intros; now rewrite ?fold_left_appendChild).
  rewrite !map_map. split.
  - rewrite <- (map_id col_texts) at 2. apply map_ext. intros t. apply textContent_cell.
  - rewrite <- (map_id row_texts) at 2. apply map_ext. intros cs.
    rewrite fold_left_appendChild. cbn.
    rewrite !app_nil_r, filter_tag_map by reflexivity.
    rewrite map_map. rewrite <- (map_id cs) at 2. apply map_ext. intros t.
    apply textContent_cell.
Qed.

Lemma printable_rows (rows : list (list value)) :
  existsb (existsb unprintable) rows = false ->
  exists row_texts : list (list string),
    Forall2 (Forall2 (fun v t => DOMString_of v = inr t)) rows row_texts.
Proof.
  induction rows as [| cs rows IH]; cbn [existsb]; [now exists [] |].
  intros H. apply orb_false_elim in H as [Hcs Hrows].
  destruct (IH Hrows) as (row_texts & Hrt).
  destruct (printable_texts cs Hcs) as (texts & Ht).
  exists (texts :: row_texts). now constructor.
Qed.




(** * The two handlers, path by path *)

Lemma bind_run (A B : Type) (c : M A) (k : A -> M B) (w : World)
    (r : Outcome A * World) :
  c w = r ->
  bind c k w = match r with
               | (Ok a, w1) => k a w1
               | (Throw e, w1) => (Throw e, w1)
               | (Pending, w1) => (Pending, w1)
               end.
Proof. intros <-. reflexivity. Qed.

Lemma setMessage_blue (text : string) (w : World) :
  setMessage text "blue" w = (Ok tt, shown text "text-blue-700" w).
Proof. destruct w; reflexivity. Qed.

Lemma setMessage_green (text : string) (w : World) :
  setMessage text "green" w = (Ok tt, shown text "text-green-600" w).
Proof. destruct w; reflexivity. Qed.

Lemma setMessage_yellow (text : string) (w : World) :
  setMessage text "yellow" w = (Ok tt, shown text "text-yellow-700" w).
Proof. destruct w; reflexivity. Qed.

Lemma setMessage_red (text : string) (w : World) :
  setMessage text "red" w = (Ok tt, shown text "text-red-600" w).
Proof. destruct w; reflexivity. Qed.

Lemma setLoading_run (b : bool) (w : World) :
  setLoading b w = (Ok tt, loading b w).
Proof. destruct b, w; reflexivity. Qed.

Lemma clearContentPreview_run (w : World) :
  clearContentPreview w = (Ok tt, cleared w).
Proof. destruct w; reflexivity. Qed.

Lemma displayContent_rendered (data : list ContentItem) (w : World) :
  displayContent data w = (fst (displayed data), rendered data w).
Proof. apply displayContent_run. Qed.

Lemma fetch_run (rq : Request) (w : World) :
  fetch rq w = match network w with
               | [] => (Pending, issued rq w)
               | inl e :: net => (Throw e, answered rq net w)
               | inr r :: net => (Ok r, answered rq net w)
               end.
Proof. unfold fetch. destruct (network w) as [| [e | r] net]; reflexivity. Qed.

Lemma throw_unless_ok_run (r : Response) (w : World) :
  throw_unless_ok r w = if ok r then (Ok tt, w) else (Throw (rejection r), w).
Proof.
  unfold throw_unless_ok, rejection, response_json, get_error, bind, throw, ret.
  destruct (ok r); cbn [negb]; [reflexivity |].
  destruct (json_result r); reflexivity.
Qed.

Lemma try_catch_finally_run (body : M unit) (catch : JsError -> M unit)
    (text : JsError -> string) (w : World) (r : Outcome unit * World) :
  (forall e w1, catch e w1 = (Ok tt, shown (text e) "text-red-600" w1)) ->
  body w = r ->
  try_catch_finally body catch (setLoading false) w = settle text r.
Proof.
  intros Hcatch <-. unfold try_catch_finally, settle.
  destruct (body w) as [[a | e |] w1]; rewrite ?Hcatch, ?setLoading_run; reflexivity.
Qed.

Lemma modify_run (f : World -> World) (w : World) : modify f w = (Ok tt, f w).
Proof. reflexivity. Qed.

Lemma gets_run (A : Type) (f : World -> A) (w : World) : gets f w = (Ok (f w), w).
Proof. reflexivity. Qed.

Lemma response_json_run (r : Response) (w : World) :
  response_json r w = match json_result r with
                      | JsonRejects e => (Throw e, w)
                      | v => (Ok v, w)
                      end.
Proof. unfold response_json. destruct (json_result r); reflexivity. Qed.

Lemma get_extracted_data_run (v : JsonResult) (w : World) :
  get_extracted_data v w
  = match v with
    | JsonValue _ d => (Ok d, w)
    | _ => (Throw (TypeError (TypeError_message "result.extracted_data")), w)
    end.
Proof. destruct v; reflexivity. Qed.

Lemma response_blob_run (r : Response) (w : World) :
  response_blob r w = match blob_result r with
                      | inl e => (Throw e, w)
                      | inr b => (Ok b, w)
                      end.
Proof. unfold response_blob, lift. destruct (blob_result r); reflexivity. Qed.

Lemma extractedData_set (d : list ContentItem) (w : World) :
  extractedData (set_extractedData d w) = d.
Proof. reflexivity. Qed.

Lemma network_after_rendering (t c : string) (data d : list ContentItem)
    (rq : Request) (net : list FetchOutcome) (w : World) :
  network (shown t c (rendered data (set_extractedData d (answered rq net w)))) = net.
Proof. reflexivity. Qed.

Ltac step lem := rewrite (bind_run _ _ _ _ _ _ lem); cbv beta iota.

Lemma extract_try_run (files : list File) (w : World) :
  extract_try files w = extract_try_result files w.
Proof.
  unfold extract_try, extract_try_result.
  step (fetch_run (upload_request files) w).
  destruct (network w) as [| [e | r] net]; cbv beta iota zeta; try reflexivity.
  step (throw_unless_ok_run r (answered (upload_request files) net w)).
  destruct (ok r); cbv beta iota; [| reflexivity].
  step (response_json_run r (answered (upload_request files) net w)).
  destruct (json_result r) as [e | | err data]; cbv beta iota; try reflexivity.
  - step (get_extracted_data_run (JsonValue err data)
            (answered (upload_request files) net w)).
    step (modify_run (set_extractedData data) (answered (upload_request files) net w)).
    step (gets_run _ extractedData
            (set_extractedData data (answered (upload_request files) net w))).
    rewrite extractedData_set.
    destruct data as [| item rest]; cbn [Nat.ltb Nat.leb length].
    + step (setMessage_yellow "No content could be extracted from the files."
              (set_extractedData [] (answered (upload_request files) net w))).
      reflexivity.
    + step (displayContent_rendered (item :: rest)
              (set_extractedData (item :: rest) (answered (upload_request files) net w))).
      destruct (fst (displayed (item :: rest))) as [[] | e |]; cbv beta iota;
        try reflexivity.
      step (setMessage_green
              "Content extracted successfully! You can now download the PDF."
              (rendered (item :: rest)
                 (set_extractedData (item :: rest)
                    (answered (upload_request files) net w)))).
      rewrite (bind_run _ _ _ _ _ _ (fetch_run _ _)), network_after_rendering.
      destruct net as [| [e | r2] net']; reflexivity.
Qed.

Lemma extract_catch_run (e : JsError) (w : World) :
  extract_catch e w = (Ok tt, shown (extract_catch_text e) "text-red-600" w).
Proof. apply setMessage_red. Qed.

Lemma download_catch_run (e : JsError) (w : World) :
  download_catch e w = (Ok tt, shown (download_catch_text e) "text-red-600" w).
Proof. apply setMessage_red. Qed.

Lemma extractButton_click_run (w : World) :
  extractButton_click w = extract_result w.
Proof.
  unfold extractButton_click, extract_result.
  step (gets_run _ pdfFile_files w).
  destruct (pdfFile_files w) as [| file more]; cbn [length Nat.eqb].
  - apply setMessage_yellow.
  - step (setMessage_blue
            ("Processing " +++ String_of_nat (S (length more)) +++ " PDF file(s)...") w).
    step (setLoading_run true
            (shown ("Processing " +++ String_of_nat (S (length more)) +++ " PDF file(s)...")
               "text-blue-700" w)).
    rewrite (bind_run _ _ _ _ _ _ (modify_run _ _)). cbv beta iota.
    rewrite (bind_run _ _ _ _ _ _ (clearContentPreview_run _)). cbv beta iota.
    apply try_catch_finally_run; [apply extract_catch_run | apply extract_try_run].
Qed.

Lemma download_try_run (data : list ContentItem) (w : World) :
  download_try data w = download_try_result data w.
Proof.
  unfold download_try, download_try_result.
  step (fetch_run (generate_request data) w).
  destruct (network w) as [| [e | r] net]; cbv beta iota zeta; try reflexivity.
  step (throw_unless_ok_run r (answered (generate_request data) net w)).
  destruct (ok r); cbv beta iota; [| reflexivity].
  step (response_blob_run r (answered (generate_request data) net w)).
  destruct (blob_result r) as [e | blob]; cbv beta iota; [reflexivity |].
  rewrite (bind_run _ _ _ _ _ _ (modify_run _ _)). cbv beta iota.
  apply setMessage_green.
Qed.

Lemma downloadButton_click_run (w : World) :
  downloadButton_click w = download_result w.
Proof.
  unfold downloadButton_click, download_result.
  step (gets_run _ extractedData w).
  destruct (extractedData w) as [| item rest]; cbn [length Nat.eqb].
  - apply setMessage_yellow.
  - step (setMessage_blue "Generating PDF for download..." w).
    step (setLoading_run true (shown "Generating PDF for download..." "text-blue-700" w)).
    apply try_catch_finally_run; [apply download_catch_run | apply download_try_run].
Qed.

Lemma network_at_try (t c : string) (w : World) :
  network (cleared (set_downloadButton_hidden true (loading true (shown t c w))))
  = network w.
Proof. reflexivity. Qed.

Lemma network_at_download_try (t c : string) (w : World) :
  network (loading true (shown t c w)) = network w.
Proof. reflexivity. Qed.

Lemma settle_cleared (text : JsError -> string) (r : Outcome unit * World) :
  fst (settle text r) <> Pending ->
  fst (settle text r) = Ok tt /\ loading_cleared (snd (settle text r)).
Proof.
  destruct r as [[[] | e |] w1]; cbn [settle fst snd]; intros H;
    [| | now elim H]; repeat split.
Qed.

Lemma settle_pending (text : JsError -> string) (r : Outcome unit * World) :
  fst (settle text r) = Pending -> fst r = Pending.
Proof. destruct r as [[[] | e |] w1]; cbn [settle fst snd]; intros H; congruence. Qed.

Lemma extract_try_pending (files : list File) (w : World) :
  fst (extract_try_result files w) = Pending -> length (network w) < 2.
Proof.
  unfold extract_try_result.
  destruct (network w) as [| [e | r] net]; cbv beta iota zeta; cbn [fst length];
    [lia | discriminate |].
  destruct (ok r); [| discriminate].
  destruct (json_result r) as [e | | err [| item rest]]; try discriminate.
  pose proof (displayed_returns (item :: rest)) as Hret.
  destruct (fst (displayed (item :: rest))); [| discriminate | now elim Hret].
  destruct net as [| [e | r2] net']; cbn [fst length]; [lia | discriminate | discriminate].
Qed.

Lemma download_try_pending (data : list ContentItem) (w : World) :
  fst (download_try_result data w) = Pending -> length (network w) < 1.
Proof.
  unfold download_try_result.
  destruct (network w) as [| [e | r] net]; cbv beta iota zeta; cbn [fst length];
    [lia | discriminate |].
  destruct (ok r); [| discriminate].
  destruct (blob_result r); discriminate.
Qed.

(** A click on Download touches neither the dataset, nor the [hidden] class
    of its button, nor the preview. *)
Lemma download_result_frame (w : World) :
  extractedData (snd (download_result w)) = extractedData w
  /\ downloadButton_hidden (snd (download_result w)) = downloadButton_hidden w
  /\ contentPreview (snd (download_result w)) = contentPreview w
  /\ displayContent_calls (snd (download_result w)) = displayContent_calls w.
Proof.
  unfold download_result.
  destruct (extractedData w) as [| item rest] eqn:Hd; [now repeat split |].
  unfold download_try_result. rewrite network_at_download_try.
  destruct (network w) as [| [e | r] net]; cbv beta iota zeta;
    [now repeat split | now repeat split |].
  destruct (ok r); [| now repeat split].
  destruct (blob_result r); now repeat split.
Qed.

(** * The claims about the two handlers *)

(** C6.  With no file selected, a click on Extract ends at once: it only
    sets the status line to the message asking for files (in the warning
    colour), issues no request, consumes nothing from the network and leaves
    every other part of the state as it was. *)
Theorem C6_no_files_selected (w : World) :
  pdfFile_files w = [] ->
  extractButton_click w
  = (Ok tt,
     set_messageDiv "Please select one or more PDF files first."
       (message_classes "text-yellow-700") w)
  /\ requests (snd (extractButton_click w)) = requests w
  /\ network (snd (extractButton_click w)) = network w.
Proof.
  intros H. rewrite extractButton_click_run. unfold extract_result. rewrite H.
  repeat split.
Qed.

(** C4.  A click on Extract with files selected, and a click on Download
    with a dataset retained, reach the network.  However such a run ends
    (success, service failure, transport failure, an exception while
    rendering), the handler itself ends normally with the three controls
    enabled and the loading indicator hidden; and it does end once the
    network has answered the requests it makes (at most two for Extract, one
    for Download). *)
Theorem C4_loading_cleared_on_every_outcome (w : World) :
  (pdfFile_files w <> [] ->
     (fst (extractButton_click w) <> Pending ->
        fst (extractButton_click w) = Ok tt
        /\ loading_cleared (snd (extractButton_click w)))
     /\ (2 <= length (network w) -> fst (extractButton_click w) <> Pending))
  /\ (extractedData w <> [] ->
     (fst (downloadButton_click w) <> Pending ->
        fst (downloadButton_click w) = Ok tt
        /\ loading_cleared (snd (downloadButton_click w)))
     /\ (1 <= length (network w) -> fst (downloadButton_click w) <> Pending)).
Proof.
  split; intros Hne.
  - rewrite extractButton_click_run. unfold extract_result.
    destruct (pdfFile_files w) as [| file more]; [now elim Hne |].
    cbv zeta. split; [apply settle_cleared |].
    intros Hlen Hp. apply settle_pending, extract_try_pending in Hp.
    rewrite network_at_try in Hp. lia.
  - rewrite downloadButton_click_run. unfold download_result.
    destruct (extractedData w) as [| item rest]; [now elim Hne |].
    split; [apply settle_cleared |].
    intros Hlen Hp. apply settle_pending, download_try_pending in Hp.
    rewrite network_at_download_try in Hp. lia.
Qed.

(** C9.  With no dataset retained, a click on Download ends at once: it only
    sets the status line to the message that there is nothing to download
    and issues no request.  However a click on Download ends, the retained
    dataset is the one it started with and the button keeps the visibility it
    had; after a transport failure or a response that is not ok the status
    line carries the error and the controls are enabled again, so the click
    can be repeated. *)
Theorem C9_download_keeps_dataset (w : World) :
  (extractedData w = [] ->
     downloadButton_click w
     = (Ok tt,
        set_messageDiv "No content to download. Please extract first."
          (message_classes "text-yellow-700") w)
     /\ requests (snd (downloadButton_click w)) = requests w
     /\ network (snd (downloadButton_click w)) = network w)
  /\ (extractedData (snd (downloadButton_click w)) = extractedData w
      /\ downloadButton_hidden (snd (downloadButton_click w)) = downloadButton_hidden w)
  /\ (forall e net,
        extractedData w <> [] -> network w = inl e :: net ->
        fst (downloadButton_click w) = Ok tt
        /\ messageDiv_textContent (snd (downloadButton_click w))
           = "An error occurred during download: " +++ message e +++ "."
        /\ loading_cleared (snd (downloadButton_click w)))
  /\ (forall r net,
        extractedData w <> [] -> network w = inr r :: net -> ok r = false ->
        fst (downloadButton_click w) = Ok tt
        /\ messageDiv_textContent (snd (downloadButton_click w))
           = "An error occurred during download: " +++ message (rejection r) +++ "."
        /\ loading_cleared (snd (downloadButton_click w))).
Proof.
  rewrite downloadButton_click_run.
  split; [| split; [| split]].
  - intros H. unfold download_result. rewrite H. repeat split.
  - destruct (download_result_frame w) as (H1 & H2 & _). now split.
  - intros e net Hne Hn. unfold download_result.
    destruct (extractedData w) as [| item rest]; [now elim Hne |].
    unfold download_try_result. rewrite network_at_download_try, Hn.
    repeat split.
  - intros r net Hne Hn Hok. unfold download_result.
    destruct (extractedData w) as [| item rest]; [now elim Hne |].
    unfold download_try_result. rewrite network_at_download_try, Hn.
    cbv beta iota zeta. rewrite Hok.
    repeat split.
Qed.

(** C10.  A click on Extract whose upload succeeds with a non-empty dataset
    that renders completely stores the dataset, shows its preview and issues
    the regeneration request for it.  If that request resolves, with
    whatever status, the Download button loses its [hidden] class and the
    success message stays; the response is not looked at.  If it rejects,
    the [catch] block runs: the status line carries the error in the error
    colour and the Download button keeps its [hidden] class, although the
    dataset is stored and the preview is shown.  In both cases the handler
    ends normally and [finally] has cleared the [disabled] property of the
    controls: what tells the two cases apart is the [hidden] class. *)
Theorem C10_regeneration_request_outcome
    (w : World) (r : Response) (g : FetchOutcome) (net : list FetchOutcome)
    (err : option string) (data : list ContentItem) :
  pdfFile_files w <> [] ->
  network w = inr r :: g :: net ->
  ok r = true ->
  json_result r = JsonValue err data ->
  data <> [] ->
  fst (displayContent data w) = Ok tt ->
  fst (extractButton_click w) = Ok tt
  /\ extractedData (snd (extractButton_click w)) = data
  /\ contentPreview (snd (extractButton_click w))
     = contentPreview (snd (displayContent data w))
  /\ requests (snd (extractButton_click w))
     = (requests w ++ [upload_request (pdfFile_files w)]) ++ [generate_request data]
  /\ loading_cleared (snd (extractButton_click w))
  /\ match g with
     | inr _ =>
         downloadButton_hidden (snd (extractButton_click w)) = false
         /\ messageDiv_textContent (snd (extractButton_click w))
            = "Content extracted successfully! You can now download the PDF."
         /\ messageDiv_classList (snd (extractButton_click w))
            = message_classes "text-green-600"
     | inl e =>
         downloadButton_hidden (snd (extractButton_click w)) = true
         /\ messageDiv_textContent (snd (extractButton_click w))
            = "An error occurred: " +++ message e
              +++ ". Please check the server console for details."
         /\ messageDiv_classList (snd (extractButton_click w))
            = message_classes "text-red-600"
     end.
Proof.
  intros Hfiles Hn Hok Hjson Hdata Hdisp.
  rewrite displayContent_run in *. cbn [fst] in Hdisp.
  rewrite extractButton_click_run. unfold extract_result.
  destruct (pdfFile_files w) as [| file more]; [now elim Hfiles |].
  destruct data as [| item rest]; [now elim Hdata |].
  unfold extract_try_result. cbv zeta. rewrite network_at_try, Hn.
  cbv beta iota. rewrite Hok, Hjson. cbv beta iota. rewrite Hdisp.
  destruct g as [e | r2]; repeat split.
Qed.

(** ** The retained dataset and the preview *)

Lemma extract_result_cases (w : World) :
  (extractedData (snd (extract_result w)) = extractedData w
   /\ downloadButton_hidden (snd (extract_result w)) = downloadButton_hidden w
   /\ contentPreview (snd (extract_result w)) = contentPreview w)
  \/ downloadButton_hidden (snd (extract_result w)) = true
  \/ (fst (displayed (extractedData (snd (extract_result w)))) = Ok tt
      /\ snd (displayed (extractedData (snd (extract_result w))))
         = contentPreview (snd (extract_result w))).
Proof.
  unfold extract_result.
  destruct (pdfFile_files w) as [| file more]; [left; now repeat split |].
  right. unfold extract_try_result. cbv zeta. rewrite network_at_try.
  destruct (network w) as [| [e | r] net]; cbv beta iota;
    [now left | now left |].
  destruct (ok r); [| now left].
  destruct (json_result r) as [e | | err [| item rest]]; try (now left).
  destruct (fst (displayed (item :: rest))) as [[] | e |] eqn:Hd; try (now left).
  destruct net as [| [e | r2] net']; [now left | now left |].
  right. split; [exact Hd | reflexivity].
Qed.

Lemma reachable_preview (w : World) :
  reachable w ->
  downloadButton_hidden w = false -> extractedData w <> [] ->
  fst (displayed (extractedData w)) = Ok tt
  /\ snd (displayed (extractedData w)) = contentPreview w.
Proof.
  induction 1 as [w Hstart | w e net Hreach IH Hen]; intros Hshown Hdata.
  - now elim Hdata.
  - destruct e as [files | |]; cbn [handle] in *.
    + apply IH; assumption.
    + rewrite extractButton_click_run in *.
      destruct (extract_result_cases (set_network net w)) as [(E1 & E2 & E3) | [E | E]].
      * rewrite E1, E3 in *. rewrite E2 in Hshown. apply IH; assumption.
      * congruence.
      * exact E.
    + rewrite downloadButton_click_run in *.
      destruct (download_result_frame (set_network net w)) as (E1 & E2 & E3 & _).
      rewrite E1, E3 in *. rewrite E2 in Hshown. apply IH; assumption.
Qed.

Lemma last_displayed_after_call (data : list ContentItem) (w : World) :
  last (map Some (displayContent_calls w ++ [data])) None = Some data.
Proof. rewrite map_app. cbn [map]. apply last_last. Qed.

(** The retained dataset, when there is one, is the one [displayContent] was
    last called with: a click on Extract that stores a dataset displays it
    at once, and nothing else assigns [extractedData] or calls
    [displayContent]. *)
Lemma extract_result_last_displayed (w : World) :
  (extractedData w <> [] -> last_displayed w = Some (extractedData w)) ->
  extractedData (snd (extract_result w)) <> [] ->
  last_displayed (snd (extract_result w)) = Some (extractedData (snd (extract_result w))).
Proof.
  unfold extract_result. intros IH.
  destruct (pdfFile_files w) as [| file more]; [exact IH |].
  unfold extract_try_result. cbv zeta. rewrite network_at_try.
  destruct (network w) as [| [e | r] net]; cbv beta iota; [exact IH | exact IH |].
  destruct (ok r); [| exact IH].
  destruct (json_result r) as [e | | err [| item rest]]; try exact IH.
  - intros H. now elim H.
  - intros _.
    destruct (fst (displayed (item :: rest))) as [[] | e |];
      [destruct net as [| [e | r2] net'] | |];
      apply (last_displayed_after_call (item :: rest)).
Qed.

Lemma reachable_last_displayed (w : World) :
  reachable w ->
  extractedData w <> [] -> last_displayed w = Some (extractedData w).
Proof.
  induction 1 as [w Hstart | w e net Hreach IH Hen]; intros Hdata.
  - now elim Hdata.
  - destruct e as [files | |]; cbn [handle] in *.
    + apply IH; assumption.
    + rewrite extractButton_click_run in *.
      apply extract_result_last_displayed; [exact IH | exact Hdata].
    + rewrite downloadButton_click_run in *.
      destruct (download_result_frame (set_network net w)) as (E1 & _ & _ & E4).
      unfold last_displayed. rewrite E1, E4 in *. apply IH; assumption.
Qed.

Lemma upload_is_not_generate (files : list File) (d : list ContentItem) :
  upload_request files <> generate_request d.
Proof. discriminate. Qed.

(** The requests a click on Extract adds to those issued before, and what a
    regeneration request among them carries. *)
Lemma extract_result_added (w : World) :
  exists rs : list Request,
    requests (snd (extract_result w)) = requests w ++ rs
    /\ forall d, In (generate_request d) rs ->
         extractedData (snd (extract_result w)) = d
         /\ last_displayed (snd (extract_result w)) = Some d
         /\ fst (displayed d) = Ok tt
         /\ snd (displayed d) = contentPreview (snd (extract_result w)).
Proof.
  unfold extract_result.
  destruct (pdfFile_files w) as [| file more].
  { exists []. split; [symmetry; apply app_nil_r | intros d []]. }
  unfold extract_try_result. cbv zeta. rewrite network_at_try.
  assert (Hup : forall d, In (generate_request d) [upload_request (file :: more)] -> False).
  { intros d [Hin | []]. now apply upload_is_not_generate in Hin. }
  destruct (network w) as [| [e | r] net]; cbv beta iota;
    try (exists [upload_request (file :: more)];
         split; [reflexivity | intros d Hin; now elim (Hup d Hin)]).
  destruct (ok r);
    [| exists [upload_request (file :: more)];
       split; [reflexivity | intros d Hin; now elim (Hup d Hin)]].
  destruct (json_result r) as [e | | err [| item rest]];
    try (exists [upload_request (file :: more)];
         split; [reflexivity | intros d Hin; now elim (Hup d Hin)]).
  destruct (fst (displayed (item :: rest))) as [[] | e |] eqn:Hd;
    try (exists [upload_request (file :: more)];
         split; [reflexivity | intros d Hin; now elim (Hup d Hin)]).
  destruct net as [| [e | r2] net'];
    (exists [upload_request (file :: more); generate_request (item :: rest)];
     split;
     [transitivity ((requests w ++ [upload_request (file :: more)])
                    ++ [generate_request (item :: rest)]);
      [reflexivity | now rewrite <- app_assoc]
     | intros d [Hin | [Hin | []]];
       [now apply upload_is_not_generate in Hin |];
       injection Hin as <-;
       (split; [reflexivity
               | split; [apply (last_displayed_after_call (item :: rest))
                        | split; [exact Hd | reflexivity]]])]).
Qed.

(** C2.  In every state the page can reach: a dataset that is retained is
    the dataset [displayContent] was last called with, and a click on
    Download with a dataset retained issues one request, whose body is that
    dataset.  Whenever a download can be asked for, that is, the Download
    button is shown (does not carry the [hidden] class) and a dataset is
    retained, the preview is exactly the complete rendering of the retained
    dataset.  A regeneration request that a click on Extract adds to the
    requests issued carries the dataset this click stored and rendered
    completely into the preview. *)
Theorem C2_download_sends_the_displayed_dataset (w : World) :
  reachable w ->
  (extractedData w <> [] ->
     last_displayed w = Some (extractedData w)
     /\ requests (snd (downloadButton_click w))
        = requests w ++ [generate_request (extractedData w)])
  /\ (downloadButton_hidden w = false -> extractedData w <> [] ->
      fst (displayContent (extractedData w) w) = Ok tt
      /\ contentPreview (snd (displayContent (extractedData w) w)) = contentPreview w)
  /\ (forall rs d,
        requests (snd (extractButton_click w)) = requests w ++ rs ->
        In (generate_request d) rs ->
        extractedData (snd (extractButton_click w)) = d
        /\ last_displayed (snd (extractButton_click w)) = Some d
        /\ fst (displayContent d (snd (extractButton_click w))) = Ok tt
        /\ contentPreview (snd (displayContent d (snd (extractButton_click w))))
           = contentPreview (snd (extractButton_click w))).
Proof.
  intros Hreach. split; [| split].
  - intros Hdata. split; [apply (reachable_last_displayed w Hreach Hdata) |].
    rewrite downloadButton_click_run. unfold download_result.
    destruct (extractedData w) as [| item rest]; [now elim Hdata |].
    unfold download_try_result. rewrite network_at_download_try.
    destruct (network w) as [| [e | r] net]; cbv beta iota zeta; try reflexivity.
    destruct (ok r); [| reflexivity].
    destruct (blob_result r); reflexivity.
  - intros Hshown Hdata. rewrite displayContent_run. cbn [fst snd].
    apply (reachable_preview w Hreach Hshown Hdata).
  - intros rs d Hrs Hin. rewrite displayContent_run. cbn [fst snd].
    rewrite extractButton_click_run in *.
    destruct (extract_result_added w) as (rs0 & Hrs0 & Hgen).
    rewrite Hrs0 in Hrs. apply app_inv_head in Hrs. subst rs0.
    exact (Hgen d Hin).
Qed.

(** ** The message of a failed request *)

(** What the status line shows after a response that is not ok, for both
    endpoints: the text of the exception [throw_unless_ok] raises. *)
Lemma service_failure_message (w : World) (r : Response) (net : list FetchOutcome) :
  network w = inr r :: net -> ok r = false ->
  (pdfFile_files w <> [] ->
     messageDiv_textContent (snd (extractButton_click w))
     = "An error occurred: " +++ message (rejection r)
       +++ ". Please check the server console for details.")
  /\ (extractedData w <> [] ->
     messageDiv_textContent (snd (downloadButton_click w))
     = "An error occurred during download: " +++ message (rejection r) +++ ".").
Proof.
  intros Hn Hok. split; intros Hne.
  - rewrite extractButton_click_run. unfold extract_result.
    destruct (pdfFile_files w) as [| file more]; [now elim Hne |].
    unfold extract_try_result. cbv zeta. rewrite network_at_try, Hn.
    cbv beta iota. rewrite Hok. reflexivity.
  - rewrite downloadButton_click_run. unfold download_result.
    destruct (extractedData w) as [| item rest]; [now elim Hne |].
    unfold download_try_result. rewrite network_at_download_try, Hn.
    cbv beta iota zeta. rewrite Hok. reflexivity.
Qed.

(** The text of that exception, by what the body of the response is: a
    non-empty [error] property is used as it is; a JSON value without one
    (or with an empty one) gives the generic text built from the status; a
    body that is not JSON gives the parser's message, and the value [null]
    the engine's message for reading a property of [null]. *)
Lemma rejection_message (r : Response) :
  match json_result r with
  | JsonValue (Some s) _ =>
      s <> EmptyString -> message (rejection r) = s
  | JsonValue None _ =>
      message (rejection r) = "HTTP error! status: " +++ String_of_nat (status r)
  | JsonRejects e => message (rejection r) = message e
  | JsonNull => message (rejection r) = TypeError_message "errorData.error"
  end.
Proof.
  unfold rejection. destruct (json_result r) as [e | | [s |] d]; try reflexivity.
  intros Hs. cbn. destruct (String.eqb_spec s EmptyString); [contradiction | reflexivity].
Qed.

(** * Further properties of the script *)

(** ** The helper functions *)

Lemma setMessage_run (text type_ : string) (w : World) :
  setMessage text type_ w
  = (Ok tt,
     set_messageDiv text
       (["text-center"; "text-lg"; "mb-4"; "font-semibold"] ++ colour_class type_) w).
Proof.
  unfold colour_class.
  destruct (String.eqb_spec type_ "blue") as [-> | Hb]; [destruct w; reflexivity |].
  destruct (String.eqb_spec type_ "green") as [-> | Hg]; [destruct w; reflexivity |].
  destruct (String.eqb_spec type_ "yellow") as [-> | Hy]; [destruct w; reflexivity |].
  destruct (String.eqb_spec type_ "red") as [-> | Hr]; [destruct w; reflexivity |].
  apply String.eqb_neq in Hb, Hg, Hy, Hr.
  unfold setMessage, bind, modify, ret. rewrite Hb, Hg, Hy, Hr.
  destruct w; reflexivity.
Qed.

Lemma set_messageDiv_twice (t0 t : string) (c0 c : list string) (w : World) :
  set_messageDiv t c (set_messageDiv t0 c0 w) = set_messageDiv t c w.
Proof. destruct w; reflexivity. Qed.

(** X1.  [clearContentPreview] always ends normally and leaves in the
    preview exactly one node, the placeholder paragraph (not hidden), with
    the title of the preview hidden, whatever the preview held before; it
    changes nothing else, and calling it twice is the same as calling it
    once. *)
Theorem X1_clearContentPreview_resets_the_preview (w : World) :
  clearContentPreview w
  = (Ok tt, set_contentPreview [placeholder] (set_previewTitle_hidden true w))
  /\ (forall ns : list node,
        clearContentPreview (set_contentPreview ns w) = clearContentPreview w)
  /\ (clearContentPreview ;; clearContentPreview) w = clearContentPreview w
  /\ group_headers (contentPreview (snd (clearContentPreview w))) = []
  /\ item_blocks (contentPreview (snd (clearContentPreview w))) = [].
Proof.
  destruct w. repeat split.
Qed.

(** X2.  [setMessage text type] replaces the text and the whole class list
    of the status line, whatever they were: the class list becomes the four
    base classes followed by the class of the colour, which is one class for
    [blue], [green], [yellow] and [red] and none for any other string.  A
    second call overrides the first, and nothing but the status line
    changes. *)
Theorem X2_setMessage_replaces_the_status_line (text type_ : string) (w : World) :
  setMessage text type_ w
  = (Ok tt,
     set_messageDiv text
       (["text-center"; "text-lg"; "mb-4"; "font-semibold"] ++ colour_class type_) w)
  /\ length (colour_class type_) <= 1
  /\ (~ In type_ ["blue"; "green"; "yellow"; "red"] -> colour_class type_ = [])
  /\ (forall text0 type0 : string,
        (setMessage text0 type0 ;; setMessage text type_) w = setMessage text type_ w).
Proof.
  split; [apply setMessage_run | split; [| split]].
  - unfold colour_class. repeat (destruct (String.eqb _ _); [cbn; lia |]). cbn; lia.
  - intros Hnot. unfold colour_class.
    destruct (String.eqb_spec type_ "blue") as [-> | _]; [elim Hnot; cbn; tauto |].
    destruct (String.eqb_spec type_ "green") as [-> | _]; [elim Hnot; cbn; tauto |].
    destruct (String.eqb_spec type_ "yellow") as [-> | _]; [elim Hnot; cbn; tauto |].
    destruct (String.eqb_spec type_ "red") as [-> | _]; [elim Hnot; cbn; tauto |].
    reflexivity.
  - intros text0 type0. unfold bind. rewrite (setMessage_run text0 type0).
    rewrite !setMessage_run. now rewrite set_messageDiv_twice.
Qed.

(** ** The renderer on a whole dataset *)

Lemma last_nonempty (A : Type) (l : list A) :
  forall (x d d' : A), last (x :: l) d = last (x :: l) d'.
Proof.
  induction l as [| y l IH]; intros x d d'; [reflexivity |].
  change (last (y :: l) d = last (y :: l) d'). apply IH.
Qed.

Lemma trace_last (data : list ContentItem) :
  forall cur c, fst (trace cur data) = Ok c -> c = last (map source_filename data) cur.
Proof.
  induction data as [| item rest IH]; intros cur c; [cbn; congruence |].
  rewrite trace_cons.
  destruct (fst (step_outcome (source_filename item) item)); cbn [fst];
    try discriminate.
  intros H. apply IH in H. rewrite H. cbn [map].
  destruct rest as [| x rest]; [reflexivity |].
  cbn [map].
  change (last (source_filename x :: map source_filename rest) (source_filename item)
          = last (source_filename x :: map source_filename rest) cur).
  apply last_nonempty.
Qed.

Lemma trace_app (data1 : list ContentItem) :
  forall (cur : string) (data2 : list ContentItem),
    trace cur (data1 ++ data2)
    = match fst (trace cur data1) with
      | Ok c => (fst (trace c data2), snd (trace cur data1) ++ snd (trace c data2))
      | Throw e => (Throw e, snd (trace cur data1))
      | Pending => (Pending, snd (trace cur data1))
      end.
Proof.
  induction data1 as [| item rest IH]; intros cur data2; cbn [app].
  - cbn. now destruct (trace cur data2).
  - rewrite !trace_cons.
    destruct (fst (step_outcome (source_filename item) item)); cbn [fst snd];
      try reflexivity.
    rewrite IH.
    destruct (fst (trace (source_filename item) rest)); cbn [fst snd];
      now rewrite ?app_assoc.
Qed.

Lemma block_part_no_placeholder (item : ContentItem) :
  no_placeholder (block_part item) = true.
Proof.
  pose proof (step_outcome_returns (source_filename item) item) as Hret.
  destruct (fst (step_outcome (source_filename item) item)) eqn:E; [| | congruence].
  - destruct (block_part_Ok _ _ _ E) as [_ Hall]. unfold no_placeholder.
    rewrite forallb_forall in *. intros n Hn. apply Hall in Hn.
    unfold is_item_block in Hn. now apply andb_prop in Hn as [_ Hn].
  - now rewrite (block_part_Throw _ _ _ E).
Qed.

Lemma trace_no_placeholder (data : list ContentItem) :
  forall cur, no_placeholder (snd (trace cur data)) = true.
Proof.
  unfold no_placeholder.
  induction data as [| item rest IH]; intros cur; [reflexivity |].
  rewrite trace_cons.
  assert (Hstep : forallb (fun n => negb (is_placeholder n))
                    (header_part cur item ++ block_part item) = true).
  { rewrite forallb_app. apply andb_true_intro. split.
    - unfold header_part. now destruct (String.eqb cur (source_filename item)).
    - apply block_part_no_placeholder. }
  destruct (fst (step_outcome (source_filename item) item)); cbn [snd];
    try exact Hstep.
  rewrite forallb_app, Hstep. apply IH.
Qed.

(** X3.  [displayContent] rebuilds the preview from nothing: how it ends and
    the preview it leaves depend on the dataset only, not on what the
    preview or the page held before.  It never waits; the preview it leaves
    starts with the placeholder, now hidden, which is the only node with the
    placeholder's id; and the title of the preview is shown. *)
Theorem X3_displayContent_rebuilds_the_preview
    (data : list ContentItem) (w1 w2 : World) :
  fst (displayContent data w1) = fst (displayContent data w2)
  /\ contentPreview (snd (displayContent data w1))
     = contentPreview (snd (displayContent data w2))
  /\ fst (displayContent data w1) <> Pending
  /\ (exists rest : list node,
        contentPreview (snd (displayContent data w1)) = placeholder_hidden :: rest
        /\ no_placeholder rest = true)
  /\ previewTitle_hidden (snd (displayContent data w1)) = false.
Proof.
  rewrite !displayContent_run. cbn [fst snd].
  split; [reflexivity | split; [reflexivity | split; [apply displayed_returns | split]]].
  - exists (snd (trace EmptyString data)).
    split; [reflexivity | apply trace_no_placeholder].
  - reflexivity.
Qed.

(** ** The image and table branches of the callback *)

(** X4.  For an item of type [image] the callback never throws and appends,
    after the group header if one is due, one block: a [div] holding an
    [h4] whose text is the item's title and an [img] whose [src] is the
    item's content and whose [alt] is the item's title, both taken as they
    are. *)
Theorem X4_image_block
    (item : ContentItem) (cur : string) (w : World) :
  type item = "image" ->
  exists block h4 img : node,
    forEach_item cur item w
    = (Ok (source_filename item),
       set_contentPreview (contentPreview w ++ header_part cur item ++ [block]) w)
    /\ tag_of block = "div" /\ children_of block = [h4; img]
    /\ is_item_block block = true
    /\ tag_of h4 = "h4" /\ textContent h4 = title item
    /\ tag_of img = "img" /\ children_of img = []
    /\ attribute "src" img = Some (content item)
    /\ attribute "alt" img = Some (title item).
Proof.
  intros Htype.
  exists (Element "div" [] ["my-4"; "text-center"]
            [set_textContent (title item)
               (Element "h4" [] ["text-md"; "font-semibold"; "text-gray-700"] []);
             Element "img" [("src", content item); ("alt", title item)]
               ["max-w-full"; "h-auto"; "mx-auto"; "rounded-lg"; "shadow-md"; "mt-2"] []]),
    (set_textContent (title item)
       (Element "h4" [] ["text-md"; "font-semibold"; "text-gray-700"] [])),
    (Element "img" [("src", content item); ("alt", title item)]
       ["max-w-full"; "h-auto"; "mx-auto"; "rounded-lg"; "shadow-md"; "mt-2"] []).
  split; [| repeat split; apply textContent_set_textContent].
  rewrite forEach_item_run.
  unfold step_outcome, header_part, forEach_item, bind, contentPreview_appendChild,
    modify, ret.
  rewrite Htype.
  destruct (String.eqb_spec cur (source_filename item)) as [-> | _]; reflexivity.
Qed.

Lemma step_outcome_table (cur : string) (item : ContentItem) :
  type item = "table" ->
  step_outcome cur item
  = match table_outcome item with
    | Ok block => (Ok (source_filename item), header_part cur item ++ [block])
    | Throw e => (Throw e, header_part cur item)
    | Pending => (Pending, header_part cur item)
    end.
Proof.
  intros Htype.
  unfold step_outcome, header_part, forEach_item, bind, contentPreview_appendChild,
    modify, ret.
  rewrite Htype.
  destruct (String.eqb_spec cur (source_filename item)) as [-> | _]; cbn;
    rewrite !table_block_run; destruct (table_outcome item); cbn; 
    rewrite ?app_nil_r; reflexivity.
Qed.

Lemma foldM_Ok_all (A B : Type) (f : A -> B -> M A) (P : B -> Prop) :
  (forall a x w r w', f a x w = (Ok r, w') -> P x) ->
  forall l a w b w', foldM f l a w = (Ok b, w') -> Forall P l.
Proof.
  intros Hf. induction l as [| x l IH]; intros a w b w' H; [constructor |].
  cbn [foldM] in H. apply bind_Ok in H as (a1 & w1 & H1 & H2).
  constructor; [exact (Hf _ _ _ _ _ H1) | exact (IH _ _ _ _ H2)].
Qed.

Lemma foldM_Throw_all (A B : Type) (f : A -> B -> M A) (Q : JsError -> Prop) :
  (forall a x w e w', f a x w = (Throw e, w') -> Q e) ->
  forall l a w e w', foldM f l a w = (Throw e, w') -> Q e.
Proof.
  intros Hf. induction l as [| x l IH]; intros a w e w' H; [discriminate |].
  cbn [foldM] in H. unfold bind in H.
  destruct (f a x w) as [[a1 | e1 |] w1] eqn:E; [| | discriminate].
  - exact (IH _ _ _ _ H).
  - injection H as <- _. exact (Hf _ _ _ _ _ E).
Qed.

Lemma lift_Ok (A : Type) (r : JsError + A) (a : A) (w w' : World) :
  lift r w = (Ok a, w') -> r = inr a.
Proof. destruct r; cbn; intros H; [discriminate | now injection H as -> _]. Qed.

Lemma get_array_property (what key : string) (v : value) (l : list value) :
  get_property what key v = inr (Some (JArray l)) ->
  exists ps, v = JObject ps /\ property key ps = Some (JArray l).
Proof.
  destruct v; cbn; intros H; try discriminate.
  injection H as H. eauto.
Qed.

Lemma as_array_inr (what : string) (v : option value) (l : list value) :
  as_array what v = inr l -> v = Some (JArray l).
Proof. destruct v as [[] |]; cbn; intros H; try discriminate. now injection H as ->. Qed.

Lemma DOMString_of_inr (v : value) (s : string) :
  DOMString_of v = inr s -> unprintable v = false.
Proof.
  intros H. pose proof (DOMString_of_unprintable v) as Hv.
  destruct (unprintable v); [congruence | reflexivity].
Qed.

Lemma DOMString_of_inl (v : value) (e : JsError) :
  DOMString_of v = inl e -> e = TypeError (TypeError_message "String(value)").
Proof.
  intros H. pose proof (DOMString_of_unprintable v) as Hv.
  destruct (unprintable v); [congruence | destruct Hv; congruence].
Qed.

Lemma all_printable (l : list value) :
  Forall (fun v => unprintable v = false) l -> existsb unprintable l = false.
Proof. induction 1 as [| v l Hv _ IH]; [reflexivity |]. cbn. now rewrite Hv, IH. Qed.

Lemma all_printable_arrays (l : list value) :
  Forall (fun x => exists cs, x = JArray cs /\ existsb unprintable cs = false) l ->
  exists rows : list (list value),
    l = map JArray rows /\ existsb (existsb unprintable) rows = false.
Proof.
  induction 1 as [| x l (cs & -> & Hcs) _ (rows & -> & Hrows)]; [now exists [] |].
  exists (cs :: rows). cbn. now rewrite Hcs, Hrows.
Qed.

(** What the table branch needs of the item's content to build its block. *)
Lemma table_outcome_well_formed (item : ContentItem) (block : node) :
  table_outcome item = Ok block ->
  (exists ps cols rows,
      JSON_parse (content item) = inr (JObject ps)
      /\ property "columns" ps = Some (JArray cols)
      /\ property "data" ps = Some (JArray (map JArray rows))
      /\ existsb unprintable cols = false
      /\ existsb (existsb unprintable) rows = false)
  /\ tag_of block = "div" /\ map tag_of (children_of block) = ["h4"; "table"]
  /\ is_item_block block = true.
Proof.
  unfold table_outcome. intros H.
  assert (Hrun : table_block item example_page = (Ok block, example_page)).
  { rewrite table_block_run. unfold table_outcome. now rewrite H. }
  clear H. unfold table_block in Hrun.
  apply bind_Ok in Hrun as (tableData & w1 & Hparse & Hrun).
  apply bind_Ok in Hrun as (columns & w2 & Hcolumns & Hrun).
  apply bind_Ok in Hrun as (cols & w3 & Hcols & Hrun).
  apply bind_Ok in Hrun as (headerRow & w4 & Hhead & Hrun).
  apply bind_Ok in Hrun as (data & w5 & Hdata & Hrun).
  apply bind_Ok in Hrun as (rows & w6 & Hrows & Hrun).
  apply bind_Ok in Hrun as (tbody & w7 & Hbody & Hrun).
  injection Hrun as <- _.
  apply lift_Ok in Hparse, Hcolumns, Hcols, Hdata, Hrows.
  apply as_array_inr in Hcols, Hrows. subst columns data.
  apply get_array_property in Hcolumns as (ps & -> & Hc).
  apply get_array_property in Hdata as (ps' & Eps & Hd).
  injection Eps as <-.
  apply foldM_Ok_all with (P := fun v => unprintable v = false) in Hhead.
  2:{ intros a x w r w' Hx. apply bind_Ok in Hx as (text & w0 & Htext & _).
      apply lift_Ok in Htext. exact (DOMString_of_inr _ _ Htext). }
  apply all_printable in Hhead.
  apply foldM_Ok_all
    with (P := fun x => exists cs, x = JArray cs /\ existsb unprintable cs = false)
    in Hbody.
  2:{ intros a x w r w' Hx. apply bind_Ok in Hx as (cs & w0 & Hcs & Hx).
      apply lift_Ok, as_array_inr in Hcs. injection Hcs as ->.
      apply bind_Ok in Hx as (tr & w8 & Htr & _).
      exists cs. split; [reflexivity |]. apply all_printable.
      apply foldM_Ok_all with (P := fun v => unprintable v = false) in Htr; [exact Htr |].
      intros a1 x1 w9 r1 w10 Hx1. apply bind_Ok in Hx1 as (text & w11 & Htext & _).
      apply lift_Ok in Htext. exact (DOMString_of_inr _ _ Htext). }
  apply all_printable_arrays in Hbody as (rs & -> & Hrs).
  split; [| repeat split].
  exists ps, cols, rs. split; [| repeat split; assumption].
  destruct (JSON_parse (content item)); [discriminate | now injection Hparse as ->].
Qed.

(** The exceptions of the table branch. *)
Lemma table_outcome_Throw (item : ContentItem) (e : JsError) :
  table_outcome item = Throw e ->
  (exists m, JSON_parse (content item) = inl m /\ e = SyntaxError m)
  \/ (exists v what, JSON_parse (content item) = inr v
                     /\ e = TypeError (TypeError_message what)).
Proof.
  unfold table_outcome, table_block, bind.
  destruct (JSON_parse (content item)) as [m | v]; cbn [lift throw ret fst].
  - intros H. injection H as <-. left. eauto.
  - intros H. right. exists v.
    assert (Hget : forall what key e1,
               get_property what key v = inl e1 -> e1 = TypeError (TypeError_message what)).
    { intros what key e1. destruct v; cbn; intros E; try discriminate.
      now injection E as <-. }
    assert (Harr : forall what (x : option value) e1,
               as_array what x = inl e1 -> e1 = TypeError (TypeError_message what)).
    { intros what x e1. destruct x as [[] |]; cbn; intros E; try discriminate;
        now injection E as <-. }
    assert (Hcell : forall (mk : string -> node) (a : node) (x : value) (w : World)
                           (e1 : JsError) (w' : World),
               bind (lift (DOMString_of x)) (fun text => ret (appendChild a (mk text))) w
               = (Throw e1, w') ->
               e1 = TypeError (TypeError_message "String(value)")).
    { intros mk a x w e1 w'. unfold bind.
      destruct (DOMString_of x) as [e2 | text] eqn:E; cbn [lift throw ret];
        [| discriminate].
      intros Hx. injection Hx as <- _. exact (DOMString_of_inl _ _ E). }
    destruct (get_property "tableData.columns" "columns" v) as [e1 | columns] eqn:E1;
      cbn [lift throw ret fst] in H.
    { injection H as <-. apply Hget in E1. eauto. }
    destruct (as_array "tableData.columns.forEach" columns) as [e2 | cols] eqn:E2;
      cbn [lift throw ret fst] in H.
    { injection H as <-. apply Harr in E2. eauto. }
    match type of H with
    | context [foldM ?f cols ?a ?w] =>
        destruct (foldM f cols a w) as [[headerRow | e0 |] w0] eqn:E0
    end; cbn [fst] in H; [| | discriminate].
    2:{ injection H as <-. exists "String(value)". split; [reflexivity |].
        apply foldM_Throw_all
          with (Q := fun e => e = TypeError (TypeError_message "String(value)")) in E0;
          [exact E0 |].
        intros a x w e1 w' Hx. exact (Hcell _ _ _ _ _ _ Hx). }
    destruct (get_property "tableData.data" "data" v) as [e3 | data] eqn:E3;
      cbn [lift throw ret fst] in H.
    { injection H as <-. apply Hget in E3. eauto. }
    destruct (as_array "tableData.data.forEach" data) as [e4 | rows] eqn:E4;
      cbn [lift throw ret fst] in H.
    { injection H as <-. apply Harr in E4. eauto. }
    match type of H with
    | context [foldM ?f rows ?a ?w] =>
        destruct (foldM f rows a w) as [[tbody | e5 |] w5] eqn:E5
    end; cbn [fst] in H; try discriminate.
    injection H as <-.
    apply foldM_Throw_all
      with (Q := fun e => exists what, e = TypeError (TypeError_message what)) in E5.
    + destruct E5 as (what & ->). now exists what.
    + intros a x w e0 w' Hx. unfold bind in Hx.
      destruct (as_array "row.forEach" (Some x)) as [e6 | cs] eqn:E6;
        cbn [lift throw ret] in Hx.
      * injection Hx as <- _. apply Harr in E6. eauto.
      * match type of Hx with
        | context [foldM ?f cs ?a0 ?w1] =>
            destruct (foldM f cs a0 w1) as [[tr | e7 |] w7] eqn:E7
        end; try discriminate.
        injection Hx as <- _. exists "String(value)".
        apply foldM_Throw_all
          with (Q := fun e => e = TypeError (TypeError_message "String(value)")) in E7;
          [exact E7 |].
        intros a1 x1 w1 e1 w1' Hx1. exact (Hcell _ _ _ _ _ _ Hx1).
Qed.

(** X5.  For an item of type [table] the callback completes exactly when the
    item's content parses to an object whose [columns] is an array and whose
    [data] is an array of arrays, none of the column names and cell values
    being unprintable (an object with a property [toString] of its own, or
    an array holding one); in every other case it throws. *)
Theorem X5_table_renders_iff_well_formed
    (item : ContentItem) (cur : string) (w : World) :
  type item = "table" ->
  (exists c, fst (forEach_item cur item w) = Ok c)
  <-> (exists ps cols rows,
          JSON_parse (content item) = inr (JObject ps)
          /\ property "columns" ps = Some (JArray cols)
          /\ property "data" ps = Some (JArray (map JArray rows))
          /\ existsb unprintable cols = false
          /\ existsb (existsb unprintable) rows = false).
Proof.
  intros Htype. rewrite forEach_item_run, step_outcome_table by exact Htype.
  cbn [fst]. split.
  - intros [c Hc].
    destruct (table_outcome item) as [block | e |] eqn:E; try discriminate.
    now apply table_outcome_well_formed in E.
  - intros (ps & cols & rows & Hparse & Hcols & Hdata & Hpc & Hpr).
    destruct (printable_texts cols Hpc) as (col_texts & Hct).
    destruct (printable_rows rows Hpr) as (row_texts & Hrt).
    destruct (table_block_cells item example_page ps cols rows col_texts row_texts
                Hparse Hcols Hdata Hct Hrt) as (block & Hrun & _).
    rewrite table_block_run in Hrun. injection Hrun as ->. cbn [fst]. eauto.
Qed.

(** X6.  The table branch is all or nothing.  For an item of type [table]
    the callback either appends (after the group header if one is due) one
    block, a [div] holding an [h4] and a [table], or it throws having
    appended nothing but the group header if one was due.  What it throws is
    the SyntaxError of [JSON.parse], with the parser's message, when the
    content is not JSON, and a TypeError otherwise. *)
Theorem X6_table_block_is_all_or_nothing
    (item : ContentItem) (cur : string) (w : World) :
  type item = "table" ->
  (exists block : node,
      forEach_item cur item w
      = (Ok (source_filename item),
         set_contentPreview (contentPreview w ++ header_part cur item ++ [block]) w)
      /\ tag_of block = "div"
      /\ map tag_of (children_of block) = ["h4"; "table"]
      /\ is_item_block block = true)
  \/ (exists e : JsError,
        forEach_item cur item w
        = (Throw e, set_contentPreview (contentPreview w ++ header_part cur item) w)
        /\ ((exists m, JSON_parse (content item) = inl m /\ e = SyntaxError m)
            \/ (exists v what, JSON_parse (content item) = inr v
                               /\ e = TypeError (TypeError_message what)))).
Proof.
  intros Htype. rewrite forEach_item_run, step_outcome_table by exact Htype.
  pose proof (table_outcome_returns item) as Hret.
  destruct (table_outcome item) as [block | e |] eqn:E; [| | now elim Hret].
  - left. exists block. apply table_outcome_well_formed in E as (_ & H1 & H2 & H3).
    now repeat split.
  - right. exists e. split; [reflexivity | now apply table_outcome_Throw].
Qed.

(** ** The order of the items *)

(** X7.  The rendering stops at the first item whose callback throws.  If
    the items before it render completely and the item alone does not, then
    the rendering of the whole dataset ends with that item's exception, and
    the preview holds what the items before it produced, followed by the
    group header of the failing item when its [source_filename] differs from
    that of the item before it: nothing of the failing item itself and
    nothing of the items after it. *)
Theorem X7_rendering_stops_at_the_first_error
    (data1 data2 : list ContentItem) (item : ContentItem) (e : JsError) (w : World) :
  fst (displayContent data1 w) = Ok tt ->
  fst (displayContent [item] w) = Throw e ->
  fst (displayContent (data1 ++ item :: data2) w) = Throw e
  /\ contentPreview (snd (displayContent (data1 ++ item :: data2) w))
     = contentPreview (snd (displayContent data1 w))
       ++ (if String.eqb (last_source data1) (source_filename item) then []
           else [header_node (source_filename item)]).
Proof.
  rewrite !displayContent_run. unfold rendered.
  cbn [fst snd contentPreview set_contentPreview]. unfold displayed. cbn [fst snd].
  intros H1 Hitem.
  rewrite trace_app.
  destruct (fst (trace EmptyString data1)) as [c | |] eqn:E1; try discriminate.
  apply trace_last in E1. fold (last_source data1) in E1. subst c.
  rewrite trace_cons in *.
  destruct (fst (step_outcome (source_filename item) item)) as [c | e' |] eqn:Es.
  - cbn [fst forget trace] in Hitem. discriminate.
  - cbn [fst snd] in *. injection Hitem as ->. split; [reflexivity |].
    rewrite (block_part_Throw _ _ _ Es), app_nil_r. reflexivity.
  - discriminate.
Qed.

(** X8.  Item blocks come in input order and each item contributes its own:
    when the first part of a dataset renders completely, the item blocks of
    the rendering of the whole are those of the first part followed by those
    of the rest rendered alone, and the whole ends as the rest alone does. *)
Theorem X8_item_blocks_follow_the_input_order
    (data1 data2 : list ContentItem) (w : World) :
  fst (displayContent data1 w) = Ok tt ->
  item_blocks (contentPreview (snd (displayContent (data1 ++ data2) w)))
  = item_blocks (contentPreview (snd (displayContent data1 w)))
    ++ item_blocks (contentPreview (snd (displayContent data2 w)))
  /\ fst (displayContent (data1 ++ data2) w) = fst (displayContent data2 w).
Proof.
  rewrite !displayContent_run. unfold rendered.
  cbn [fst snd contentPreview set_contentPreview]. unfold displayed. cbn [fst snd].
  intros H1. rewrite trace_app.
  destruct (fst (trace EmptyString data1)) as [c | |] eqn:E1; try discriminate.
  destruct (trace_blocks_indep data2 c EmptyString) as [Hb Hf].
  cbn [fst snd]. split; [| exact Hf].
  unfold item_blocks in *. cbn [filter]. 
  change (is_item_block placeholder_hidden) with false. cbv iota.
  now rewrite filter_app, Hb.
Qed.

(** ** The Extract listener, path by path *)

Lemma download_without_dataset (w : World) :
  extractedData w = [] ->
  downloadButton_click w
  = (Ok tt, shown "No content to download. Please extract first." "text-yellow-700" w).
Proof.
  intros H. rewrite downloadButton_click_run. unfold download_result. now rewrite H.
Qed.

Lemma download_without_dataset_requests (w : World) :
  extractedData w = [] ->
  requests (snd (downloadButton_click w)) = requests w.
Proof. intros H. now rewrite (download_without_dataset w H). Qed.

Lemma download_request (w : World) :
  extractedData w <> [] ->
  requests (snd (downloadButton_click w))
  = requests w ++ [generate_request (extractedData w)].
Proof.
  intros Hdata. rewrite downloadButton_click_run. unfold download_result.
  destruct (extractedData w) as [| item rest]; [now elim Hdata |].
  unfold download_try_result. rewrite network_at_download_try.
  destruct (network w) as [| [e | r] net]; cbv beta iota zeta; try reflexivity.
  destruct (ok r); [| reflexivity].
  destruct (blob_result r); reflexivity.
Qed.

(** X9.  A click on Extract with files selected issues the upload request
    first: a POST to the upload endpoint whose form data holds the selected
    files in order, each under the name [pdfFile].  It issues at most one
    more request, the regeneration request for the dataset it has stored. *)
Theorem X9_extract_issues_the_upload_first (w : World) :
  pdfFile_files w <> [] ->
  (exists tail : list Request,
      requests (snd (extractButton_click w))
      = requests w ++ upload_request (pdfFile_files w) :: tail
      /\ (tail = []
          \/ tail = [generate_request (extractedData (snd (extractButton_click w)))]))
  /\ url (upload_request (pdfFile_files w)) = "http://127.0.0.1:5000/upload-pdfs"
  /\ method (upload_request (pdfFile_files w)) = "POST"
  /\ (exists entries : list (string * File),
        body (upload_request (pdfFile_files w)) = FormData entries
        /\ map snd entries = pdfFile_files w
        /\ Forall (fun entry => fst entry = "pdfFile") entries).
Proof.
  intros Hfiles. split; [| split; [reflexivity | split; [reflexivity |]]].
  - rewrite extractButton_click_run. unfold extract_result.
    destruct (pdfFile_files w) as [| file more]; [now elim Hfiles |].
    unfold extract_try_result. cbv zeta. rewrite network_at_try.
    destruct (network w) as [| [e | r] net]; cbv beta iota;
      try (exists []; split; [reflexivity | now left]).
    destruct (ok r); [| exists []; split; [reflexivity | now left]].
    destruct (json_result r) as [e | | err [| item rest]];
      try (exists []; split; [reflexivity | now left]).
    destruct (fst (displayed (item :: rest))) as [[] | e |];
      try (exists []; split; [reflexivity | now left]).
    destruct net as [| [e | r2] net'];
      (exists [generate_request (item :: rest)]; split; [| now right]);
      (transitivity ((requests w ++ [upload_request (file :: more)])
                     ++ [generate_request (item :: rest)]);
       [reflexivity | now rewrite <- app_assoc]).
  - exists (map (fun file => ("pdfFile", file)) (pdfFile_files w)).
    split; [reflexivity | split].
    + rewrite map_map. cbn [snd]. apply map_id.
    + apply Forall_forall. intros entry Hin. apply in_map_iff in Hin as (f & <- & _).
      reflexivity.
Qed.

(** X10.  A click on Extract whose upload succeeds with an empty dataset
    stores the empty dataset, whatever was retained before, leaves the
    preview at the placeholder, keeps the Download button hidden, shows the
    message that nothing could be extracted, in the warning colour, and
    issues no regeneration request.  A click on Download after it issues no
    request either. *)
Theorem X10_empty_extraction
    (w : World) (r : Response) (net : list FetchOutcome) (err : option string) :
  pdfFile_files w <> [] ->
  network w = inr r :: net ->
  ok r = true ->
  json_result r = JsonValue err [] ->
  fst (extractButton_click w) = Ok tt
  /\ extractedData (snd (extractButton_click w)) = []
  /\ contentPreview (snd (extractButton_click w)) = [placeholder]
  /\ downloadButton_hidden (snd (extractButton_click w)) = true
  /\ messageDiv_textContent (snd (extractButton_click w))
     = "No content could be extracted from the files."
  /\ messageDiv_classList (snd (extractButton_click w)) = message_classes "text-yellow-700"
  /\ requests (snd (extractButton_click w))
     = requests w ++ [upload_request (pdfFile_files w)]
  /\ network (snd (extractButton_click w)) = net
  /\ loading_cleared (snd (extractButton_click w))
  /\ requests (snd (downloadButton_click (snd (extractButton_click w))))
     = requests (snd (extractButton_click w)).
Proof.
  intros Hfiles Hn Hok Hjson.
  assert (Hmain :
            extractedData (snd (extractButton_click w)) = []
            /\ fst (extractButton_click w) = Ok tt
            /\ contentPreview (snd (extractButton_click w)) = [placeholder]
            /\ downloadButton_hidden (snd (extractButton_click w)) = true
            /\ messageDiv_textContent (snd (extractButton_click w))
               = "No content could be extracted from the files."
            /\ messageDiv_classList (snd (extractButton_click w))
               = message_classes "text-yellow-700"
            /\ requests (snd (extractButton_click w))
               = requests w ++ [upload_request (pdfFile_files w)]
            /\ network (snd (extractButton_click w)) = net
            /\ loading_cleared (snd (extractButton_click w))).
  { rewrite extractButton_click_run. unfold extract_result.
    destruct (pdfFile_files w) as [| file more]; [now elim Hfiles |].
    unfold extract_try_result. cbv zeta. rewrite network_at_try, Hn.
    cbv beta iota. rewrite Hok, Hjson. repeat split. }
  destruct Hmain as (H1 & H2 & H3 & H4 & H5 & H6 & H7 & H8 & H9).
  repeat (split; [assumption |]).
  exact (download_without_dataset_requests _ H1).
Qed.

(** X11.  A click on Extract whose upload fails before a dataset is
    assigned (the request is rejected, the response is not ok, or its body
    is not JSON or is [null]) ends normally: the dataset retained before
    the click is still retained and nothing has been rendered, the preview
    is back to the placeholder, the Download button is hidden, the status
    line carries the error in the error colour, one request has been issued
    and nothing has been saved.  A click on Download after it sends the
    dataset retained before. *)
Theorem X11_failed_extraction_keeps_the_dataset
    (w : World) (answer : FetchOutcome) (net : list FetchOutcome) (e : JsError) :
  pdfFile_files w <> [] ->
  network w = answer :: net ->
  upload_failure answer = Some e ->
  fst (extractButton_click w) = Ok tt
  /\ extractedData (snd (extractButton_click w)) = extractedData w
  /\ displayContent_calls (snd (extractButton_click w)) = displayContent_calls w
  /\ contentPreview (snd (extractButton_click w)) = [placeholder]
  /\ previewTitle_hidden (snd (extractButton_click w)) = true
  /\ downloadButton_hidden (snd (extractButton_click w)) = true
  /\ messageDiv_textContent (snd (extractButton_click w))
     = "An error occurred: " +++ message e
       +++ ". Please check the server console for details."
  /\ messageDiv_classList (snd (extractButton_click w)) = message_classes "text-red-600"
  /\ requests (snd (extractButton_click w))
     = requests w ++ [upload_request (pdfFile_files w)]
  /\ network (snd (extractButton_click w)) = net
  /\ saved (snd (extractButton_click w)) = saved w
  /\ loading_cleared (snd (extractButton_click w))
  /\ (extractedData w <> [] ->
      requests (snd (downloadButton_click (snd (extractButton_click w))))
      = requests (snd (extractButton_click w)) ++ [generate_request (extractedData w)]).
Proof.
  intros Hfiles Hn Hfail.
  assert (Hkeep : extractedData (snd (extractButton_click w)) = extractedData w
                  /\ fst (extractButton_click w) = Ok tt
                  /\ displayContent_calls (snd (extractButton_click w))
                     = displayContent_calls w
                  /\ contentPreview (snd (extractButton_click w)) = [placeholder]
                  /\ previewTitle_hidden (snd (extractButton_click w)) = true
                  /\ downloadButton_hidden (snd (extractButton_click w)) = true
                  /\ messageDiv_textContent (snd (extractButton_click w))
                     = "An error occurred: " +++ message e
                       +++ ". Please check the server console for details."
                  /\ messageDiv_classList (snd (extractButton_click w))
                     = message_classes "text-red-600"
                  /\ requests (snd (extractButton_click w))
                     = requests w ++ [upload_request (pdfFile_files w)]
                  /\ network (snd (extractButton_click w)) = net
                  /\ saved (snd (extractButton_click w)) = saved w
                  /\ loading_cleared (snd (extractButton_click w))).
  { rewrite extractButton_click_run. unfold extract_result.
    destruct (pdfFile_files w) as [| file more]; [now elim Hfiles |].
    unfold extract_try_result. cbv zeta. rewrite network_at_try, Hn.
    unfold upload_failure in Hfail.
    destruct answer as [e0 | r]; cbv beta iota.
    - injection Hfail as ->. repeat split.
    - destruct (ok r).
      + destruct (json_result r) as [e0 | | err d]; try discriminate;
          injection Hfail as <-; repeat split.
      + injection Hfail as <-. repeat split. }
  destruct Hkeep as (H1 & H2 & H3 & H4 & H5 & H6 & H7 & H8 & H9 & H10 & H11 & H12).
  repeat (split; [assumption |]).
  intros Hdata. rewrite download_request by (now rewrite H1). now rewrite H1.
Qed.

(** X12.  A click on Extract whose upload succeeds with a dataset that the
    renderer throws on ends normally: the dataset is stored all the same and
    the preview holds what was rendered before the exception, but no
    regeneration request is issued, the Download button stays hidden and the
    status line carries the renderer's exception in the error colour. *)
Theorem X12_rendering_error_after_the_dataset_is_stored
    (w : World) (r : Response) (net : list FetchOutcome) (err : option string)
    (data : list ContentItem) (e : JsError) :
  pdfFile_files w <> [] ->
  network w = inr r :: net ->
  ok r = true ->
  json_result r = JsonValue err data ->
  fst (displayContent data w) = Throw e ->
  fst (extractButton_click w) = Ok tt
  /\ extractedData (snd (extractButton_click w)) = data
  /\ contentPreview (snd (extractButton_click w))
     = contentPreview (snd (displayContent data w))
  /\ downloadButton_hidden (snd (extractButton_click w)) = true
  /\ messageDiv_textContent (snd (extractButton_click w))
     = "An error occurred: " +++ message e
       +++ ". Please check the server console for details."
  /\ messageDiv_classList (snd (extractButton_click w)) = message_classes "text-red-600"
  /\ requests (snd (extractButton_click w))
     = requests w ++ [upload_request (pdfFile_files w)]
  /\ network (snd (extractButton_click w)) = net
  /\ loading_cleared (snd (extractButton_click w)).
Proof.
  intros Hfiles Hn Hok Hjson Hdisp.
  rewrite displayContent_run in *. cbn [fst] in Hdisp.
  rewrite extractButton_click_run. unfold extract_result.
  destruct (pdfFile_files w) as [| file more]; [now elim Hfiles |].
  destruct data as [| item rest]; [discriminate Hdisp |].
  unfold extract_try_result. cbv zeta. rewrite network_at_try, Hn.
  cbv beta iota. rewrite Hok, Hjson. cbv beta iota. rewrite Hdisp.
  repeat split.
Qed.

(** X13.  After a click on Extract with files selected the Download button
    is shown (does not carry the [hidden] class) in one case only: the
    upload is answered by a response that is ok, with a dataset that is not
    empty and renders completely, and the regeneration request is answered
    by a response, whatever its status. *)
Theorem X13_download_button_shown_iff (w : World) :
  pdfFile_files w <> [] ->
  downloadButton_hidden (snd (extractButton_click w)) = false
  <-> (exists (r g : Response) (net : list FetchOutcome) (err : option string)
              (data : list ContentItem),
          network w = inr r :: inr g :: net
          /\ ok r = true
          /\ json_result r = JsonValue err data
          /\ data <> []
          /\ fst (displayContent data w) = Ok tt).
Proof.
  intros Hfiles. rewrite extractButton_click_run. unfold extract_result.
  destruct (pdfFile_files w) as [| file more]; [now elim Hfiles |].
  unfold extract_try_result. cbv zeta. rewrite network_at_try. split.
  - destruct (network w) as [| [e | r] net]; cbv beta iota; try discriminate.
    destruct (ok r) eqn:Hok; [| discriminate].
    destruct (json_result r) as [e | | err [| item rest]] eqn:Hjson; try discriminate.
    destruct (fst (displayed (item :: rest))) as [[] | e |] eqn:Hdisp; try discriminate.
    destruct net as [| [e | g] net']; try discriminate.
    intros _. exists r, g, net', err, (item :: rest).
    repeat split; try assumption; [discriminate |].
    now rewrite displayContent_run.
  - intros (r & g & net & err & data & Hn & Hok & Hjson & Hdata & Hdisp).
    rewrite displayContent_run in Hdisp. cbn [fst] in Hdisp.
    destruct data as [| item rest]; [now elim Hdata |].
    rewrite Hn. cbv beta iota. rewrite Hok, Hjson. cbv beta iota. rewrite Hdisp.
    reflexivity.
Qed.

(** X14.  While a handler waits for the network nothing else can start: if
    the handling of an event is left pending, then in the state it leaves
    the file input and both buttons are disabled, so that no event is
    enabled, and the loading indicator is shown. *)
Theorem X14_no_event_while_a_request_is_pending (e : Event) (w : World) :
  fst (handle e w) = Pending ->
  (forall e' : Event, enabled e' (snd (handle e w)) = false)
  /\ loadingSpinner_hidden (snd (handle e w)) = false
  /\ network (snd (handle e w)) = [].
Proof.
  destruct e as [files | |]; cbn [handle].
  - discriminate.
  - rewrite extractButton_click_run. unfold extract_result.
    destruct (pdfFile_files w) as [| file more]; [discriminate |].
    unfold extract_try_result. cbv zeta. rewrite network_at_try.
    destruct (network w) as [| [e | r] net] eqn:Hn; cbv beta iota;
      [intros _; split; [intros [? | |]; reflexivity | split; [reflexivity | exact Hn]]
      | discriminate |].
    destruct (ok r); [| discriminate].
    destruct (json_result r) as [e | | err [| item rest]]; try discriminate.
    pose proof (displayed_returns (item :: rest)) as Hret.
    destruct (fst (displayed (item :: rest))) as [[] | e |];
      [| discriminate | now elim Hret].
    destruct net as [| [e | r2] net']; try discriminate.
    intros _; split; [intros [? | |]; reflexivity | split; reflexivity].
  - rewrite downloadButton_click_run. unfold download_result.
    destruct (extractedData w) as [| item rest]; [discriminate |].
    unfold download_try_result. rewrite network_at_download_try.
    destruct (network w) as [| [e | r] net] eqn:Hn; cbv beta iota zeta;
      [intros _; split; [intros [? | |]; reflexivity | split; [reflexivity | exact Hn]]
      | discriminate |].
    destruct (ok r); [| discriminate].
    destruct (blob_result r); discriminate.
Qed.

(** ** The Download listener *)

(** X15.  A click on Download with a dataset retained, answered by a
    response that is ok whose body can be read, hands one file to the
    browser, named [extracted_content.pdf] and holding the body of the
    response as it is, shows the message that the download has started, in
    the success colour, and ends with the controls enabled.  It issues one
    request, for the retained dataset. *)
Theorem X15_download_saves_the_response
    (w : World) (r : Response) (net : list FetchOutcome) (blob : Blob) :
  extractedData w <> [] ->
  network w = inr r :: net ->
  ok r = true ->
  blob_result r = inr blob ->
  fst (downloadButton_click w) = Ok tt
  /\ saved (snd (downloadButton_click w)) = saved w ++ [("extracted_content.pdf", blob)]
  /\ messageDiv_textContent (snd (downloadButton_click w))
     = "Download started for extracted_content.pdf."
  /\ messageDiv_classList (snd (downloadButton_click w)) = message_classes "text-green-600"
  /\ requests (snd (downloadButton_click w))
     = requests w ++ [generate_request (extractedData w)]
  /\ network (snd (downloadButton_click w)) = net
  /\ loading_cleared (snd (downloadButton_click w)).
Proof.
  intros Hdata Hn Hok Hblob.
  rewrite downloadButton_click_run. unfold download_result.
  destruct (extractedData w) as [| item rest]; [now elim Hdata |].
  unfold download_try_result. rewrite network_at_download_try, Hn.
  cbv beta iota zeta. rewrite Hok, Hblob.
  repeat split.
Qed.

(** X16.  Nothing is saved except by a successful download: a click on
    Extract never hands a file to the browser, and a click on Download does
    only when a dataset is retained and the request is answered by a
    response that is ok whose body can be read. *)
Theorem X16_nothing_is_saved_without_a_successful_download (w : World) :
  saved (snd (extractButton_click w)) = saved w
  /\ (saved (snd (downloadButton_click w)) <> saved w ->
      exists (r : Response) (net : list FetchOutcome) (blob : Blob),
        extractedData w <> []
        /\ network w = inr r :: net
        /\ ok r = true
        /\ blob_result r = inr blob).
Proof.
  split.
  - rewrite extractButton_click_run. unfold extract_result.
    destruct (pdfFile_files w) as [| file more]; [reflexivity |].
    unfold extract_try_result. cbv zeta. rewrite network_at_try.
    destruct (network w) as [| [e | r] net]; cbv beta iota; try reflexivity.
    destruct (ok r); [| reflexivity].
    destruct (json_result r) as [e | | err [| item rest]]; try reflexivity.
    destruct (fst (displayed (item :: rest))) as [[] | e |]; try reflexivity.
    destruct net as [| [e | r2] net']; reflexivity.
  - rewrite downloadButton_click_run. unfold download_result.
    destruct (extractedData w) as [| item rest]; [intros H; now elim H |].
    unfold download_try_result. rewrite network_at_download_try.
    destruct (network w) as [| [e | r] net]; cbv beta iota zeta;
      try (intros H; now elim H).
    destruct (ok r) eqn:Hok; [| intros H; now elim H].
    destruct (blob_result r) as [e | blob] eqn:Hblob; [intros H; now elim H |].
    intros _. exists r, net, blob. repeat split; try assumption. discriminate.
Qed.

(** ** The message of a failure the service reports *)

(** X17.  When a response is not ok and its body is a JSON value that is
    not [null], both listeners show the same reason inside their own
    sentence: the [error] property of the body when it has one that is not
    empty, and otherwise the text built from the status code. *)
Theorem X17_service_error_is_shown
    (w : World) (r : Response) (net : list FetchOutcome)
    (err : option string) (d : list ContentItem) :
  network w = inr r :: net ->
  ok r = false ->
  json_result r = JsonValue err d ->
  exists reason : string,
    (pdfFile_files w <> [] ->
       messageDiv_textContent (snd (extractButton_click w))
       = "An error occurred: " +++ reason
         +++ ". Please check the server console for details.")
    /\ (extractedData w <> [] ->
       messageDiv_textContent (snd (downloadButton_click w))
       = "An error occurred during download: " +++ reason +++ ".")
    /\ (forall s : string, err = Some s -> s <> EmptyString -> reason = s)
    /\ (err = None \/ err = Some EmptyString ->
        reason = "HTTP error! status: " +++ String_of_nat (status r)).
Proof.
  intros Hn Hok Hjson. exists (message (rejection r)).
  destruct (service_failure_message w r net Hn Hok) as [H1 H2].
  split; [exact H1 | split; [exact H2 |]].
  unfold rejection. rewrite Hjson. cbn [message Error]. split.
  - intros s -> Hs. cbn [or_else].
    destruct (String.eqb_spec s EmptyString); [contradiction | reflexivity].
  - intros [-> | ->]; reflexivity.
Qed.

(** X18.  While the upload is in flight the page shows that it is working:
    with files selected and no answer from the network, a click on Extract
    is left pending with the status line telling how many files are being
    processed, in the progress colour, the preview back to the placeholder,
    the Download button hidden, the dataset retained before untouched, and
    the upload request as the one request issued. *)
Theorem X18_page_while_the_upload_is_pending (w : World) :
  pdfFile_files w <> [] ->
  network w = [] ->
  fst (extractButton_click w) = Pending
  /\ messageDiv_textContent (snd (extractButton_click w))
     = "Processing " +++ String_of_nat (length (pdfFile_files w)) +++ " PDF file(s)..."
  /\ messageDiv_classList (snd (extractButton_click w)) = message_classes "text-blue-700"
  /\ contentPreview (snd (extractButton_click w)) = [placeholder]
  /\ previewTitle_hidden (snd (extractButton_click w)) = true
  /\ downloadButton_hidden (snd (extractButton_click w)) = true
  /\ extractedData (snd (extractButton_click w)) = extractedData w
  /\ requests (snd (extractButton_click w))
     = requests w ++ [upload_request (pdfFile_files w)].
Proof.
  intros Hfiles Hn.
  rewrite extractButton_click_run. unfold extract_result.
  destruct (pdfFile_files w) as [| file more]; [now elim Hfiles |].
  unfold extract_try_result. cbv zeta. rewrite network_at_try, Hn.
  repeat split.
Qed.

(** X19.  The retained dataset changes in one way only: by a click on
    Extract, with files selected, whose upload is answered by a response
    that is ok and carries the dataset that is retained afterwards.  No
    other event and no other outcome assigns it; and neither click changes
    the selection of files. *)
Theorem X19_dataset_changes_only_by_a_successful_upload (e : Event) (w : World) :
  (extractedData (snd (handle e w)) <> extractedData w ->
   e = ClickExtract
   /\ pdfFile_files w <> []
   /\ exists (r : Response) (net : list FetchOutcome) (err : option string),
        network w = inr r :: net
        /\ ok r = true
        /\ json_result r = JsonValue err (extractedData (snd (handle e w))))
  /\ (e <> ClickExtract -> extractedData (snd (handle e w)) = extractedData w)
  /\ ((e = ClickExtract \/ e = ClickDownload) ->
      pdfFile_files (snd (handle e w)) = pdfFile_files w).
Proof.
  destruct e as [files | |]; cbn [handle].
  - split; [intros H; now elim H | split; [reflexivity | intros [H | H]; discriminate]].
  - rewrite extractButton_click_run. unfold extract_result.
    destruct (pdfFile_files w) as [| file more] eqn:Hfiles;
      [split; [intros H; now elim H
              | split; [intros H; now elim H | intros _; exact Hfiles]] |].
    unfold extract_try_result. cbv zeta. rewrite network_at_try.
    split; [| split; [intros H; now elim H |]].
    + destruct (network w) as [| [e | r] net] eqn:Hn; cbv beta iota;
        try (intros H; now elim H).
      destruct (ok r) eqn:Hok; [| intros H; now elim H].
      destruct (json_result r) as [e | | err [| item rest]] eqn:Hjson;
        try (intros H; now elim H).
      * intros _. split; [reflexivity | split; [discriminate |]].
        exists r, net, err. split; [reflexivity | split; [exact Hok | exact Hjson]].
      * destruct (fst (displayed (item :: rest))) as [[] | e |];
          [destruct net as [| [e | r2] net'] | |];
          (intros _; split; [reflexivity | split; [discriminate |]];
           eexists r, _, err; split; [reflexivity | split; [exact Hok | exact Hjson]]).
    + intros _.
      destruct (network w) as [| [e | r] net]; cbv beta iota; try (exact Hfiles).
      destruct (ok r); [| exact Hfiles].
      destruct (json_result r) as [e | | err [| item rest]]; try (exact Hfiles).
      destruct (fst (displayed (item :: rest))) as [[] | e |];
        [destruct net as [| [e | r2] net'] | |]; exact Hfiles.
  - rewrite downloadButton_click_run.
    destruct (download_result_frame w) as (Hkeep & _).
    split; [intros H; now elim H | split; [intros _; exact Hkeep |]].
    intros _. unfold download_result.
    destruct (extractedData w) as [| item rest]; [reflexivity |].
    unfold download_try_result. rewrite network_at_download_try.
    destruct (network w) as [| [e | r] net]; cbv beta iota zeta; try reflexivity.
    destruct (ok r); [| reflexivity].
    destruct (blob_result r); reflexivity.
Qed.

(** X20.  After a click on either button the status line carries the four
    base classes and exactly one colour class.  Once the handler has ended
    it is the success, warning or error colour, never the progress colour.
    While the handler is pending it is the progress colour, the one request
    the click has issued being awaited; except when the click is on Extract,
    its upload has been answered and its regeneration request is the one
    awaited: the status line then carries the success colour already. *)
Theorem X20_colour_of_the_status_line (e : Event) (w : World) :
  e = ClickExtract \/ e = ClickDownload ->
  (fst (handle e w) = Pending ->
   (messageDiv_classList (snd (handle e w)) = message_classes "text-blue-700"
    /\ exists rq : Request, requests (snd (handle e w)) = requests w ++ [rq])
   \/ (e = ClickExtract
       /\ messageDiv_classList (snd (handle e w)) = message_classes "text-green-600"
       /\ requests (snd (handle e w))
          = requests w ++ [upload_request (pdfFile_files w);
                           generate_request (extractedData (snd (handle e w)))]))
  /\ (fst (handle e w) <> Pending ->
      fst (handle e w) = Ok tt
      /\ In (messageDiv_classList (snd (handle e w)))
           [message_classes "text-green-600"; message_classes "text-yellow-700";
            message_classes "text-red-600"]).
Proof.
  intros [-> | ->]; cbn [handle].
  - rewrite extractButton_click_run. unfold extract_result.
    destruct (pdfFile_files w) as [| file more];
      [split; [discriminate | intros _; split; [reflexivity | right; left; reflexivity]] |].
    unfold extract_try_result. cbv zeta. rewrite network_at_try.
    destruct (network w) as [| [e | r] net]; cbv beta iota;
      [split; [intros _; left; split; [reflexivity | eexists; reflexivity]
              | intros H; now elim H]
      | split; [discriminate | intros _; split; [reflexivity | do 2 right; left; reflexivity]]
      | ].
    destruct (ok r);
      [| split; [discriminate
                | intros _; split; [reflexivity | do 2 right; left; reflexivity]]].
    destruct (json_result r) as [e | | err [| item rest]];
      try (split; [discriminate
                  | intros _; split; [reflexivity | do 2 right; left; reflexivity]]).
    + split; [discriminate | intros _; split; [reflexivity | right; left; reflexivity]].
    + pose proof (displayed_returns (item :: rest)) as Hret.
      destruct (fst (displayed (item :: rest))) as [[] | e |]; [| | now elim Hret].
      * destruct net as [| [e | r2] net'].
        -- split; [intros _; right | intros H; now elim H].
           split; [reflexivity | split; [reflexivity |]].
           transitivity ((requests w ++ [upload_request (file :: more)])
                         ++ [generate_request (item :: rest)]);
             [reflexivity | now rewrite <- app_assoc].
        -- split; [discriminate
                  | intros _; split; [reflexivity | do 2 right; left; reflexivity]].
        -- split; [discriminate | intros _; split; [reflexivity | left; reflexivity]].
      * split; [discriminate
               | intros _; split; [reflexivity | do 2 right; left; reflexivity]].
  - rewrite downloadButton_click_run. unfold download_result.
    destruct (extractedData w) as [| item rest];
      [split; [discriminate | intros _; split; [reflexivity | right; left; reflexivity]] |].
    unfold download_try_result. rewrite network_at_download_try.
    destruct (network w) as [| [e | r] net]; cbv beta iota zeta;
      [split; [intros _; left; split; [reflexivity | eexists; reflexivity]
              | intros H; now elim H]
      | split; [discriminate | intros _; split; [reflexivity | do 2 right; left; reflexivity]]
      | ].
    destruct (ok r);
      [| split; [discriminate
                | intros _; split; [reflexivity | do 2 right; left; reflexivity]]].
    destruct (blob_result r);
      [split; [discriminate
              | intros _; split; [reflexivity | do 2 right; left; reflexivity]]
      | split; [discriminate | intros _; split; [reflexivity | left; reflexivity]]].
Qed.

End Properties.

(** * Worked examples *)

#[local] Existing Instance example_engine.

(** The first scenario: two group headers and three paragraphs, in order. *)
Example scenario_dataset_renders :
  map textContent (contentPreview (snd (displayContent scenario_dataset example_page)))
  = ["Extracted content will appear here."; "--- Content from: a.pdf ---";
     "Hello"; "World"; "--- Content from: b.pdf ---"; "Foo"].
Proof. vm_compute. reflexivity. Qed.

(** The table scenario: two header cells X, Y and two body rows 1,2 and 3,4. *)
Example scenario_table_renders :
  let preview := contentPreview (snd (displayContent [table_item] example_page)) in
  map (fun block => map textContent (header_cells block)) (item_blocks preview)
  = [["X"; "Y"]]
  /\ map (fun block => map (fun tr => map textContent (cells tr)) (body_rows block))
       (item_blocks preview)
     = [[["1"; "2"]; ["3"; "4"]]].
Proof. vm_compute. split; reflexivity. Qed.

(** The failed-upload scenario: status 500 with an [error] property. *)
Example scenario_disk_full :
  let w := snd (extractButton_click (set_network [inr disk_full_response] page_with_file)) in
  messageDiv_textContent w
  = "An error occurred: disk full. Please check the server console for details."
  /\ downloadButton_hidden w = true.
Proof. vm_compute. split; reflexivity. Qed.

(** The scenario with an item of an unknown type between two valid items of
    the same file: the two valid items are rendered, nothing is thrown. *)
Example scenario_unknown_type :
  let data := [mkItem "a.pdf" "text" EmptyString "Hello"; audio_item;
               mkItem "a.pdf" "image" "Figure 1" "data:image/png;base64,AAAA"] in
  fst (displayContent data example_page) = Ok tt
  /\ map tag_of (contentPreview (snd (displayContent data example_page)))
     = ["p"; "h3"; "p"; "div"]
  /\ map (fun block => map tag_of (children_of block))
       (item_blocks (contentPreview (snd (displayContent data example_page))))
     = [[EmptyString]; ["h4"; "img"]]
  /\ map (fun block => map (attribute "src") (children_of block))
       (item_blocks (contentPreview (snd (displayContent data example_page))))
     = [[None]; [None; Some "data:image/png;base64,AAAA"]].
Proof. vm_compute. repeat split. Qed.

Lemma page_after_extraction_reachable : reachable page_after_extraction.
Proof.
  unfold page_after_extraction.
  apply reachable_event; [| reflexivity].
  change page_with_file
    with (snd (handle (SelectFiles [example_file]) (set_network [] example_page))).
  apply reachable_event; [| reflexivity].
  now apply reachable_start.
Qed.

Lemma page_after_failure_reachable : reachable page_after_failure.
Proof.
  unfold page_after_failure.
  apply reachable_event; [apply page_after_extraction_reachable | reflexivity].
Qed.

(** ** C1 *)



(** ** C3 *)


(** ** C7 *)

(** C7 fails as stated: a dataset made of one item of an unknown type still
    puts something on the page, the group header of that item's file, which
    the empty dataset does not. *)
Lemma C7_counterexample :
  recognized audio_item = false
  /\ contentPreview (snd (displayContent [audio_item] example_page))
     = [placeholder_hidden; header_node "a.pdf"]
  /\ contentPreview (snd (displayContent [] example_page)) = [placeholder_hidden]
  /\ contentPreview (snd (forEach_item EmptyString audio_item example_page))
     <> contentPreview example_page.
Proof. vm_compute. repeat split. discriminate. Qed.

Lemma C7_witness :
  recognized audio_item = false
  /\ (forall cur w,
        forEach_item cur audio_item w
        = (Ok (source_filename audio_item),
           set_contentPreview
             (contentPreview w
              ++ (if String.eqb cur (source_filename audio_item) then []
                  else [header_node (source_filename audio_item)])) w))
  /\ (forall data1 data2 w,
        fst (displayContent (data1 ++ audio_item :: data2) w)
        = fst (displayContent (data1 ++ data2) w)
        /\ item_blocks
             (contentPreview (snd (displayContent (data1 ++ audio_item :: data2) w)))
           = item_blocks (contentPreview (snd (displayContent (data1 ++ data2) w)))).
Proof.
  split; [reflexivity |].
  apply (C7_unrecognized_type_adds_no_block audio_item). reflexivity.
Defined.

(** ** C8 *)



(** ** C6 *)

Lemma C6_witness :
  pdfFile_files example_page = []
  /\ extractButton_click example_page
     = (Ok tt,
        set_messageDiv "Please select one or more PDF files first."
          (message_classes "text-yellow-700") example_page)
  /\ requests (snd (extractButton_click example_page)) = requests example_page
  /\ network (snd (extractButton_click example_page)) = network example_page.
Proof.
  split; [reflexivity |]. apply (C6_no_files_selected example_page). reflexivity.
Defined.

(** ** C4 *)

(** The page after an extraction, with a file still selected and a dataset
    retained, meeting a network that answers with a failure. *)
Lemma C4_witness :
  let w := set_network [inr disk_full_response; inl failed_to_fetch]
             page_after_extraction in
  (pdfFile_files w <> [] /\ 2 <= length (network w)
   /\ fst (extractButton_click w) = Ok tt
   /\ loading_cleared (snd (extractButton_click w)))
  /\ (extractedData w <> [] /\ 1 <= length (network w)
      /\ fst (downloadButton_click w) = Ok tt
      /\ loading_cleared (snd (downloadButton_click w))).
Proof.
  intros w.
  assert (Hfiles : pdfFile_files w <> []) by discriminate.
  assert (Hdata : extractedData w <> []) by discriminate.
  assert (Hnet : 2 <= length (network w)) by (cbn; lia).
  assert (Hnet1 : 1 <= length (network w)) by (cbn; lia).
  destruct (C4_loading_cleared_on_every_outcome w) as [He Hd].
  destruct (He Hfiles) as [He1 He2]. destruct (Hd Hdata) as [Hd1 Hd2].
  destruct (He1 (He2 Hnet)) as [Ho Hc]. destruct (Hd1 (Hd2 Hnet1)) as [Ho' Hc'].
  exact (conj (conj Hfiles (conj Hnet (conj Ho Hc)))
              (conj Hdata (conj Hnet1 (conj Ho' Hc')))).
Defined.

(** ** C9 *)

Lemma C9_witness :
  (extractedData example_page = []
   /\ downloadButton_click example_page
      = (Ok tt,
         set_messageDiv "No content to download. Please extract first."
           (message_classes "text-yellow-700") example_page)
   /\ requests (snd (downloadButton_click example_page)) = requests example_page
   /\ network (snd (downloadButton_click example_page)) = network example_page)
  /\ (let w := set_network [inl failed_to_fetch] page_after_extraction in
      extractedData w <> []
      /\ extractedData (snd (downloadButton_click w)) = extractedData w
      /\ fst (downloadButton_click w) = Ok tt
      /\ messageDiv_textContent (snd (downloadButton_click w))
         = "An error occurred during download: Failed to fetch."
      /\ loading_cleared (snd (downloadButton_click w)))
  /\ (let w := set_network [inr disk_full_response] page_after_extraction in
      ok disk_full_response = false
      /\ extractedData (snd (downloadButton_click w)) = extractedData w
      /\ messageDiv_textContent (snd (downloadButton_click w))
         = "An error occurred during download: disk full.").
Proof.
  split; [| split].
  - split; [reflexivity |].
    apply (C9_download_keeps_dataset example_page). reflexivity.
  - intros w.
    assert (Hdata : extractedData w <> []) by discriminate.
    destruct (C9_download_keeps_dataset w) as (_ & (Hkeep & _) & Hfail & _).
    destruct (Hfail failed_to_fetch [] Hdata eq_refl) as (Ho & Hm & Hc).
    exact (conj Hdata (conj Hkeep (conj Ho (conj Hm Hc)))).
  - intros w.
    assert (Hdata : extractedData w <> []) by discriminate.
    destruct (C9_download_keeps_dataset w) as (_ & (Hkeep & _) & _ & Hfail).
    destruct (Hfail disk_full_response [] Hdata eq_refl eq_refl) as (_ & Hm & _).
    exact (conj eq_refl (conj Hkeep Hm)).
Defined.

(** ** C10 *)

(** The regeneration request answered with status 500, then rejected. *)
Lemma C10_witness :
  (let w := set_network [inr (extraction_response scenario_dataset);
                         inr disk_full_response] page_with_file in
   ok disk_full_response = false
   /\ fst (extractButton_click w) = Ok tt
   /\ extractedData (snd (extractButton_click w)) = scenario_dataset
   /\ downloadButton_hidden (snd (extractButton_click w)) = false
   /\ messageDiv_textContent (snd (extractButton_click w))
      = "Content extracted successfully! You can now download the PDF.")
  /\ (let w := set_network [inr (extraction_response scenario_dataset);
                            inl failed_to_fetch] page_with_file in
      fst (extractButton_click w) = Ok tt
      /\ extractedData (snd (extractButton_click w)) = scenario_dataset
      /\ contentPreview (snd (extractButton_click w))
         = contentPreview (snd (displayContent scenario_dataset w))
      /\ downloadButton_hidden (snd (extractButton_click w)) = true
      /\ messageDiv_textContent (snd (extractButton_click w))
         = "An error occurred: Failed to fetch. Please check the server console for details.").
Proof.
  assert (Hdata : scenario_dataset <> []) by discriminate.
  split; intros w.
  - assert (Hfiles : pdfFile_files w <> []) by discriminate.
    assert (Hrender : fst (displayContent scenario_dataset w) = Ok tt)
      by (vm_compute; reflexivity).
    destruct (C10_regeneration_request_outcome w
                (extraction_response scenario_dataset) (inr disk_full_response) []
                None scenario_dataset Hfiles eq_refl eq_refl eq_refl Hdata Hrender)
      as (Ho & Hd & _ & _ & _ & Hh & Hm & _).
    exact (conj eq_refl (conj Ho (conj Hd (conj Hh Hm)))).
  - assert (Hfiles : pdfFile_files w <> []) by discriminate.
    assert (Hrender : fst (displayContent scenario_dataset w) = Ok tt)
      by (vm_compute; reflexivity).
    destruct (C10_regeneration_request_outcome w
                (extraction_response scenario_dataset) (inl failed_to_fetch) []
                None scenario_dataset Hfiles eq_refl eq_refl eq_refl Hdata Hrender)
      as (Ho & Hd & Hp & _ & _ & Hh & Hm & _).
    exact (conj Ho (conj Hd (conj Hp (conj Hh Hm)))).
Defined.

(** ** C2 *)

(** After an extraction that fails.  The page extracts the scenario's
    dataset, then a second click on Extract meets a network failure: the
    script still retains the first dataset while the preview is back to the
    placeholder.  The Download button then carries the [hidden] class; its
    handler, if run all the same, sends the retained dataset, which is the
    one rendered last. *)
Example stale_dataset_behind_a_hidden_button :
  reachable page_after_failure
  /\ extractedData page_after_failure = scenario_dataset
  /\ last_displayed page_after_failure = Some scenario_dataset
  /\ contentPreview page_after_failure = [placeholder]
  /\ downloadButton_hidden page_after_failure = true
  /\ requests (snd (handle ClickDownload
                      (set_network [inr pdf_response] page_after_failure)))
     = requests page_after_failure ++ [generate_request scenario_dataset].
Proof.
  split; [apply page_after_failure_reachable |].
  vm_compute. repeat split.
Qed.

Lemma C2_witness :
  (reachable page_after_extraction
   /\ downloadButton_hidden page_after_extraction = false
   /\ extractedData page_after_extraction <> []
   /\ last_displayed page_after_extraction = Some (extractedData page_after_extraction)
   /\ requests (snd (downloadButton_click page_after_extraction))
      = requests page_after_extraction
        ++ [generate_request (extractedData page_after_extraction)]
   /\ fst (displayContent (extractedData page_after_extraction) page_after_extraction)
      = Ok tt
   /\ contentPreview
        (snd (displayContent (extractedData page_after_extraction)
                page_after_extraction))
      = contentPreview page_after_extraction)
  /\ (let w := set_network [inr (extraction_response scenario_dataset);
                            inr pdf_response] page_after_extraction in
      reachable w
      /\ In (generate_request scenario_dataset) (requests w)
      /\ requests (snd (extractButton_click w))
         = requests w ++ [upload_request (pdfFile_files w);
                          generate_request scenario_dataset]
      /\ extractedData (snd (extractButton_click w)) = scenario_dataset
      /\ last_displayed (snd (extractButton_click w)) = Some scenario_dataset
      /\ contentPreview (snd (displayContent scenario_dataset (snd (extractButton_click w))))
         = contentPreview (snd (extractButton_click w))).
Proof.
  split.
  - assert (Hshown : downloadButton_hidden page_after_extraction = false) by reflexivity.
    assert (Hdata : extractedData page_after_extraction <> []) by discriminate.
    destruct (C2_download_sends_the_displayed_dataset page_after_extraction
                page_after_extraction_reachable) as (Hsend & Hprev & _).
    destruct (Hsend Hdata) as [Hlast Hreq].
    destruct (Hprev Hshown Hdata) as [Ho Hp].
    exact (conj page_after_extraction_reachable
             (conj Hshown (conj Hdata (conj Hlast (conj Hreq (conj Ho Hp)))))).
  - intros w.
    assert (Hreach : reachable w).
    { unfold w.
      change (set_network [inr (extraction_response scenario_dataset); inr pdf_response]
                page_after_extraction)
        with (snd (handle (SelectFiles [example_file])
                     (set_network [inr (extraction_response scenario_dataset);
                                   inr pdf_response] page_after_extraction))).
      apply reachable_event; [apply page_after_extraction_reachable | reflexivity]. }
    assert (Hbefore : In (generate_request scenario_dataset) (requests w))
      by (vm_compute; right; left; reflexivity).
    assert (Hrs : requests (snd (extractButton_click w))
                  = requests w ++ [upload_request (pdfFile_files w);
                                   generate_request scenario_dataset])
      by (vm_compute; reflexivity).
    assert (Hin : In (generate_request scenario_dataset)
                    [upload_request (pdfFile_files w); generate_request scenario_dataset])
      by (right; left; reflexivity).
    destruct (C2_download_sends_the_displayed_dataset w Hreach) as (_ & _ & Hgen).
    destruct (Hgen _ scenario_dataset Hrs Hin) as (Hd & Hl & _ & Hp).
    exact (conj Hreach (conj Hbefore (conj Hrs (conj Hd (conj Hl Hp))))).
Defined.

(** ** C5 *)

(** C5 on a response with status 500 and no body, for both endpoints: the
    status line shows the message of the JSON parser's exception, not the
    text built from the status code, which the script reaches only when the
    body is JSON that has no [error] property. *)
Theorem C5_bodyless_failure_shows_parser_message :
  ok bodyless_response = false
  /\ messageDiv_textContent
       (snd (extractButton_click (set_network [inr bodyless_response] page_with_file)))
     = "An error occurred: Unexpected end of JSON input. Please check the server console for details."
  /\ messageDiv_textContent
       (snd (downloadButton_click
               (set_network [inr bodyless_response] page_after_extraction)))
     = "An error occurred during download: Unexpected end of JSON input."
  /\ "HTTP error! status: " +++ String_of_nat (status bodyless_response)
     = "HTTP error! status: 500".
Proof. vm_compute. repeat split. Qed.

(** * Worked examples of the further properties *)

(** An image item on the example page. *)
Lemma X4_witness :
  type image_item = "image"
  /\ exists block h4 img : node,
       forEach_item EmptyString image_item example_page
       = (Ok (source_filename image_item),
          set_contentPreview
            (contentPreview example_page
             ++ header_part EmptyString image_item ++ [block]) example_page)
       /\ children_of block = [h4; img]
       /\ textContent h4 = "Figure 1"
       /\ attribute "src" img = Some "data:image/png;base64,AAAA"
       /\ attribute "alt" img = Some "Figure 1".
Proof.
  split; [reflexivity |].
  destruct (X4_image_block image_item EmptyString example_page eq_refl)
    as (block & h4 & img & H1 & _ & H2 & _ & _ & H3 & _ & _ & H4 & H5).
  exists block, h4, img. exact (conj H1 (conj H2 (conj H3 (conj H4 H5)))).
Defined.

(** The scenario's table item renders; the table item whose content is not
    JSON throws the parser's error after its group header. *)
Lemma X5_witness :
  type table_item = "table"
  /\ exists c : string, fst (forEach_item EmptyString table_item example_page) = Ok c.
Proof.
  split; [reflexivity |].
  apply (proj2 (@X5_table_renders_iff_well_formed example_engine
                  table_item EmptyString example_page eq_refl)).
  exists [("columns", JArray scenario_columns); ("data", JArray (map JArray scenario_rows))],
    scenario_columns, scenario_rows.
  repeat split.
Defined.

Lemma X6_witness :
  type broken_table_item = "table"
  /\ ((exists block : node,
         forEach_item EmptyString broken_table_item example_page
         = (Ok (source_filename broken_table_item),
            set_contentPreview
              (contentPreview example_page
               ++ header_part EmptyString broken_table_item ++ [block]) example_page)
         /\ tag_of block = "div"
         /\ map tag_of (children_of block) = ["h4"; "table"]
         /\ is_item_block block = true)
      \/ (exists e : JsError,
            forEach_item EmptyString broken_table_item example_page
            = (Throw e,
               set_contentPreview
                 (contentPreview example_page
                  ++ header_part EmptyString broken_table_item) example_page)
            /\ ((exists m, JSON_parse (content broken_table_item) = inl m
                           /\ e = SyntaxError m)
                \/ (exists v what, JSON_parse (content broken_table_item) = inr v
                                   /\ e = TypeError (TypeError_message what))))).
Proof.
  split; [reflexivity |].
  apply (X6_table_block_is_all_or_nothing broken_table_item EmptyString example_page).
  reflexivity.
Defined.

(** The scenario's dataset followed by the table item whose content is not
    JSON and by one more item. *)
Lemma X7_witness :
  fst (displayContent scenario_dataset example_page) = Ok tt
  /\ fst (displayContent [broken_table_item] example_page)
     = Throw (SyntaxError "Unexpected token in JSON: not json")
  /\ fst (displayContent (scenario_dataset ++ broken_table_item :: [markup_item])
            example_page)
     = Throw (SyntaxError "Unexpected token in JSON: not json")
  /\ contentPreview
       (snd (displayContent (scenario_dataset ++ broken_table_item :: [markup_item])
               example_page))
     = contentPreview (snd (displayContent scenario_dataset example_page))
       ++ [header_node "a.pdf"].
Proof.
  assert (H1 : fst (displayContent scenario_dataset example_page) = Ok tt)
    by (vm_compute; reflexivity).
  assert (H2 : fst (displayContent [broken_table_item] example_page)
               = Throw (SyntaxError "Unexpected token in JSON: not json"))
    by (vm_compute; reflexivity).
  destruct (X7_rendering_stops_at_the_first_error
              scenario_dataset [markup_item] broken_table_item _ example_page H1 H2)
    as [H3 H4].
  exact (conj H1 (conj H2 (conj H3 H4))).
Defined.

Lemma X8_witness :
  fst (displayContent scenario_dataset example_page) = Ok tt
  /\ item_blocks
       (contentPreview
          (snd (displayContent (scenario_dataset ++ [image_item; table_item])
                  example_page)))
     = item_blocks (contentPreview (snd (displayContent scenario_dataset example_page)))
       ++ item_blocks
            (contentPreview (snd (displayContent [image_item; table_item] example_page))).
Proof.
  assert (H1 : fst (displayContent scenario_dataset example_page) = Ok tt)
    by (vm_compute; reflexivity).
  destruct (X8_item_blocks_follow_the_input_order
              scenario_dataset [image_item; table_item] example_page H1) as [H2 _].
  exact (conj H1 H2).
Defined.

(** A successful extraction of the scenario's dataset. *)
Lemma X9_witness :
  let w := set_network [inr (extraction_response scenario_dataset); inr pdf_response]
             page_with_file in
  pdfFile_files w <> []
  /\ exists tail : list Request,
       requests (snd (extractButton_click w))
       = requests w ++ upload_request (pdfFile_files w) :: tail
       /\ (tail = []
           \/ tail = [generate_request (extractedData (snd (extractButton_click w)))]).
Proof.
  intros w.
  assert (Hfiles : pdfFile_files w <> []) by discriminate.
  destruct (X9_extract_issues_the_upload_first w Hfiles) as [H _].
  exact (conj Hfiles H).
Defined.

(** An extraction that finds nothing, on the page that retains the
    scenario's dataset. *)
Lemma X10_witness :
  let w := set_network [inr (extraction_response [])] page_after_extraction in
  pdfFile_files w <> []
  /\ extractedData w = scenario_dataset
  /\ ok (extraction_response []) = true
  /\ extractedData (snd (extractButton_click w)) = []
  /\ downloadButton_hidden (snd (extractButton_click w)) = true
  /\ messageDiv_textContent (snd (extractButton_click w))
     = "No content could be extracted from the files."
  /\ requests (snd (downloadButton_click (snd (extractButton_click w))))
     = requests (snd (extractButton_click w)).
Proof.
  intros w.
  assert (Hfiles : pdfFile_files w <> []) by discriminate.
  destruct (X10_empty_extraction w (extraction_response []) [] None
              Hfiles eq_refl eq_refl eq_refl)
    as (_ & H1 & _ & H2 & H3 & _ & _ & _ & _ & H4).
  exact (conj Hfiles (conj eq_refl (conj eq_refl (conj H1 (conj H2 (conj H3 H4)))))).
Defined.

(** An upload that reaches no server, on the page that retains the
    scenario's dataset. *)
Lemma X11_witness :
  let w := set_network [inl failed_to_fetch] page_after_extraction in
  pdfFile_files w <> []
  /\ upload_failure (inl failed_to_fetch) = Some failed_to_fetch
  /\ extractedData w <> []
  /\ extractedData (snd (extractButton_click w)) = extractedData w
  /\ contentPreview (snd (extractButton_click w)) = [placeholder]
  /\ downloadButton_hidden (snd (extractButton_click w)) = true
  /\ messageDiv_textContent (snd (extractButton_click w))
     = "An error occurred: " +++ message failed_to_fetch
       +++ ". Please check the server console for details."
  /\ requests (snd (downloadButton_click (snd (extractButton_click w))))
     = requests (snd (extractButton_click w)) ++ [generate_request (extractedData w)].
Proof.
  intros w.
  assert (Hfiles : pdfFile_files w <> []) by discriminate.
  assert (Hdata : extractedData w <> []) by discriminate.
  destruct (X11_failed_extraction_keeps_the_dataset w (inl failed_to_fetch) []
              failed_to_fetch Hfiles eq_refl eq_refl)
    as (_ & H1 & _ & H2 & _ & H3 & H4 & _ & _ & _ & _ & _ & H5).
  exact (conj Hfiles (conj eq_refl (conj Hdata
           (conj H1 (conj H2 (conj H3 (conj H4 (H5 Hdata)))))))).
Defined.

(** An extraction that returns the table item whose content is not JSON. *)
Lemma X12_witness :
  let w := set_network [inr (extraction_response [broken_table_item]); inr pdf_response]
             page_with_file in
  pdfFile_files w <> []
  /\ fst (displayContent [broken_table_item] w)
     = Throw (SyntaxError "Unexpected token in JSON: not json")
  /\ extractedData (snd (extractButton_click w)) = [broken_table_item]
  /\ downloadButton_hidden (snd (extractButton_click w)) = true
  /\ messageDiv_textContent (snd (extractButton_click w))
     = "An error occurred: "
       +++ message (SyntaxError "Unexpected token in JSON: not json")
       +++ ". Please check the server console for details."
  /\ requests (snd (extractButton_click w))
     = requests w ++ [upload_request (pdfFile_files w)]
  /\ network (snd (extractButton_click w)) = [inr pdf_response].
Proof.
  intros w.
  assert (Hfiles : pdfFile_files w <> []) by discriminate.
  assert (Hdisp : fst (displayContent [broken_table_item] w)
                  = Throw (SyntaxError "Unexpected token in JSON: not json"))
    by (vm_compute; reflexivity).
  destruct (X12_rendering_error_after_the_dataset_is_stored w
              (extraction_response [broken_table_item]) [inr pdf_response] None
              [broken_table_item] _ Hfiles eq_refl eq_refl eq_refl Hdisp)
    as (_ & H1 & _ & H2 & H3 & _ & H4 & H5 & _).
  exact (conj Hfiles (conj Hdisp (conj H1 (conj H2 (conj H3 (conj H4 H5)))))).
Defined.

Lemma X13_witness :
  let w := set_network [inr (extraction_response scenario_dataset); inr pdf_response]
             page_with_file in
  pdfFile_files w <> []
  /\ downloadButton_hidden (snd (extractButton_click w)) = false.
Proof.
  intros w.
  assert (Hfiles : pdfFile_files w <> []) by discriminate.
  split; [exact Hfiles |].
  apply (proj2 (X13_download_button_shown_iff w Hfiles)).
  exists (extraction_response scenario_dataset), pdf_response, [], None, scenario_dataset.
  split; [reflexivity | split; [reflexivity | split; [reflexivity | split]]].
  - discriminate.
  - vm_compute. reflexivity.
Defined.

(** A click on Extract that the network does not answer. *)
Lemma X14_witness :
  fst (handle ClickExtract page_with_file) = Pending
  /\ (forall e' : Event, enabled e' (snd (handle ClickExtract page_with_file)) = false)
  /\ loadingSpinner_hidden (snd (handle ClickExtract page_with_file)) = false.
Proof.
  assert (H : fst (handle ClickExtract page_with_file) = Pending)
    by (vm_compute; reflexivity).
  destruct (X14_no_event_while_a_request_is_pending ClickExtract page_with_file H)
    as (H1 & H2 & _).
  exact (conj H (conj H1 H2)).
Defined.

(** A download of the scenario's dataset. *)
Lemma X15_witness :
  let w := set_network [inr pdf_response] page_after_extraction in
  extractedData w <> []
  /\ ok pdf_response = true
  /\ saved (snd (downloadButton_click w)) = saved w ++ [("extracted_content.pdf", "%PDF-1.7")]
  /\ messageDiv_textContent (snd (downloadButton_click w))
     = "Download started for extracted_content.pdf."
  /\ loading_cleared (snd (downloadButton_click w)).
Proof.
  intros w.
  assert (Hdata : extractedData w <> []) by discriminate.
  destruct (X15_download_saves_the_response w pdf_response [] "%PDF-1.7"
              Hdata eq_refl eq_refl eq_refl)
    as (_ & H1 & H2 & _ & _ & _ & H3).
  exact (conj Hdata (conj eq_refl (conj H1 (conj H2 H3)))).
Defined.

Lemma X16_witness :
  let w := set_network [inr pdf_response] page_after_extraction in
  saved (snd (downloadButton_click w)) <> saved w
  /\ exists (r : Response) (net : list FetchOutcome) (blob : Blob),
       extractedData w <> []
       /\ network w = inr r :: net
       /\ ok r = true
       /\ blob_result r = inr blob.
Proof.
  intros w.
  assert (H : saved (snd (downloadButton_click w)) <> saved w)
    by (vm_compute; discriminate).
  destruct (X16_nothing_is_saved_without_a_successful_download w) as [_ H1].
  exact (conj H (H1 H)).
Defined.

(** The failed-upload scenario, for both listeners. *)
Lemma X17_witness :
  let w := set_network [inr disk_full_response] page_after_extraction in
  ok disk_full_response = false
  /\ pdfFile_files w <> []
  /\ extractedData w <> []
  /\ exists reason : string,
       messageDiv_textContent (snd (extractButton_click w))
       = "An error occurred: " +++ reason
         +++ ". Please check the server console for details."
       /\ messageDiv_textContent (snd (downloadButton_click w))
          = "An error occurred during download: " +++ reason +++ "."
       /\ reason = "disk full".
Proof.
  intros w.
  assert (Hfiles : pdfFile_files w <> []) by discriminate.
  assert (Hdata : extractedData w <> []) by discriminate.
  assert (Hs : "disk full" <> EmptyString) by discriminate.
  destruct (X17_service_error_is_shown w disk_full_response [] (Some "disk full") []
              eq_refl eq_refl eq_refl)
    as (reason & H1 & H2 & H3 & _).
  refine (conj eq_refl (conj Hfiles (conj Hdata _))).
  exists reason. exact (conj (H1 Hfiles) (conj (H2 Hdata) (H3 _ eq_refl Hs))).
Defined.

Lemma X18_witness :
  pdfFile_files page_with_file <> []
  /\ network page_with_file = []
  /\ fst (extractButton_click page_with_file) = Pending
  /\ messageDiv_textContent (snd (extractButton_click page_with_file))
     = "Processing " +++ String_of_nat 1 +++ " PDF file(s)..."
  /\ downloadButton_hidden (snd (extractButton_click page_with_file)) = true.
Proof.
  assert (Hfiles : pdfFile_files page_with_file <> []) by discriminate.
  destruct (X18_page_while_the_upload_is_pending page_with_file Hfiles eq_refl)
    as (H1 & H2 & _ & _ & _ & H3 & _).
  exact (conj Hfiles (conj eq_refl (conj H1 (conj H2 H3)))).
Defined.

Lemma X19_witness :
  let w := set_network [inr (extraction_response scenario_dataset); inr pdf_response]
             page_with_file in
  extractedData (snd (handle ClickExtract w)) <> extractedData w
  /\ pdfFile_files w <> []
  /\ (exists (r : Response) (net : list FetchOutcome) (err : option string),
        network w = inr r :: net
        /\ ok r = true
        /\ json_result r = JsonValue err (extractedData (snd (handle ClickExtract w))))
  /\ ClickDownload <> ClickExtract
  /\ extractedData (snd (handle ClickDownload w)) = extractedData w.
Proof.
  intros w.
  assert (H : extractedData (snd (handle ClickExtract w)) <> extractedData w)
    by (vm_compute; discriminate).
  assert (Hne : ClickDownload <> ClickExtract) by discriminate.
  destruct (X19_dataset_changes_only_by_a_successful_upload ClickExtract w) as [H1 _].
  destruct (H1 H) as (_ & H2 & H3).
  destruct (X19_dataset_changes_only_by_a_successful_upload ClickDownload w)
    as (_ & H4 & _).
  exact (conj H (conj H2 (conj H3 (conj Hne (H4 Hne))))).
Defined.

Lemma X20_witness :
  let w := set_network [inr pdf_response] page_after_extraction in
  (ClickDownload = ClickExtract \/ ClickDownload = ClickDownload)
  /\ fst (handle ClickDownload w) <> Pending
  /\ fst (handle ClickDownload w) = Ok tt
  /\ In (messageDiv_classList (snd (handle ClickDownload w)))
       [message_classes "text-green-600"; message_classes "text-yellow-700";
        message_classes "text-red-600"].
Proof.
  intros w.
  assert (He : ClickDownload = ClickExtract \/ ClickDownload = ClickDownload)
    by (right; reflexivity).
  assert (H : fst (handle ClickDownload w) <> Pending) by (vm_compute; discriminate).
  destruct (X20_colour_of_the_status_line ClickDownload w He) as [_ H1].
  destruct (H1 H) as [H2 H3].
  exact (conj He (conj H (conj H2 H3))).
Defined.
